(** * A shallow embedding of [scripts/verify.py]

    The script checks the metadata of a problem package ([problem.json],
    [subtasks.json], [solutions.json]) and accumulates diagnostics in two
    global lists.  We model Python values produced by [json.load], the
    Python operations the script applies to them (with the exceptions they
    raise), and the script's functions as computations in a state and
    exception monad whose state holds the two diagnostic lists and the
    global [namespace]. *)

From Stdlib Require Import String Ascii ZArith List QArith Bool Lia.
Import ListNotations.

Local Set Warnings "-register-all".
Local Open Scope string_scope.

(** ** Python values read from JSON *)

(** A Python float: a finite double is a dyadic rational; [json.load]
    also accepts [Infinity], [-Infinity] and [NaN]. *)
Inductive pyfloat :=
| FFin (q : Q)
| FInf (positive : bool)
| FNaN.

(** Values produced by [json.load]; a JSON object is the Python dict built
    by the [object_pairs_hook], kept as an association list in insertion
    order.  [JNull] is Python's [None]. *)
Inductive json :=
| JNull
| JBool (b : bool)
| JInt (z : Z)
| JFloat (f : pyfloat)
| JStr (s : string)
| JList (l : list json)
| JObj (kvs : list (string * json)).

(** A JSON document as the parser sees it, before the hook folds the
    key/value pairs of each object into a dict. *)
Inductive raw :=
| RNull
| RBool (b : bool)
| RInt (z : Z)
| RFloat (f : pyfloat)
| RStr (s : string)
| RList (l : list raw)
| RObj (pairs : list (string * raw)).

(** The content of a JSON file as far as [load_data] is concerned: it
    cannot be opened ([IOError]), it is not valid JSON ([ValueError] from
    [json.load]), or it parses to a document. *)
Inductive file_content :=
| FMissing
| FInvalid
| FJson (r : raw).

(** ** Exceptions, diagnostics and the monad *)

Inductive exn :=
| KeyError (arg : option string)
| TypeError
| AttributeError
| ValueError
| IndexError
| OSError
| CalledProcessError.

Inductive outcome (A : Type) :=
| Ok (a : A)
| Raise (e : exn).
Arguments Ok {A} a.
Arguments Raise {A} e.

(** The descriptions passed to [error(...)], one constructor per format
    string of the script; [render_error] below gives the text. *)
Inductive diag :=
| DDuplicateKey (key : string)
| DInvalidJson
| DFileNotExists
| DRequired (key : string) (json_name : option string)
| DNameNotString
| DTitleNotString
| DTypeInvalid
| DHasGraderNotBool
| DHasManagerNotBool
| DTimeLimit
| DMemoryLimit
| DNeitherValidatorKey
| DNotArray (key : string) (parLoc : string)
| DValidatorNotString (name : string) (index : Z) (parLoc : string)
| DValidatorFileNotFound (name : string) (cmd : string) (parLoc : string)
| DUnknownPlaceholder (validator : string) (placeholder : string)
| DNoPlaceholder (validator : string)
| DInvalidData (name : string)
| DScoreNotNonNegative (name : string)
| DSamplesNonZero
| DScoreSum (sum : Z)
| DMissingIndex (i : Z)
| DVerdict (key_name : string)
| DMoreThanOneModel
| DNotExists (solution : json)
| DInvalidExcept (solution : string)
| DSubtaskNotDefined (subtask : string)
| DNoModel
| DNotRepresented (solution : string)
| DNotFound (file : string).

(** The descriptions passed to [warning(...)]. *)
Inductive warn :=
| WNameMismatch
| WStatementEmpty
| WNoTitle
| WTitleMismatch (title : json) (statement_title : string)
| WStatementMissing
| WOutputOnlyGrader
| WCommunicationNoManager
| WOutputOnlyManager
| WUnusedValidator (file : string).

(** The module-level globals [errors], [warnings] and [namespace]. *)
Record state := mkState {
  errors : list (string * diag);
  warnings : list (string * warn);
  namespace : string
}.

Definition M (A : Type) := state -> outcome A * state.

Definition ret {A} (a : A) : M A := fun s => (Ok a, s).

Definition bind {A B} (m : M A) (f : A -> M B) : M B :=
  fun s =>
    match m s with
    | (Ok a, s') => f a s'
    | (Raise e, s') => (Raise e, s')
    end.

Definition raise {A} (e : exn) : M A := fun s => (Raise e, s).

Notation "x <- m ;; k" := (bind m (fun x => k))
  (at level 61, m at next level, right associativity).
Notation "m ;;; k" := (bind m (fun _ => k))
  (at level 61, right associativity).

(** A Python operation without side effects that may raise. *)
Definition lift {A} (o : outcome A) : M A := fun s => (o, s).

(** [try: m except ...]: the handler picks the exceptions it catches. *)
Definition try_except {A} (m : M A) (h : exn -> option (M A)) : M A :=
  fun s =>
    match m s with
    | (Raise e, s') =>
        match h e with
        | Some k => k s'
        | None => (Raise e, s')
        end
    | r => r
    end.

Definition catch_KeyError {A} (m : M A) (k : M A) : M A :=
  try_except m (fun e => match e with KeyError _ => Some k | _ => None end).

(** [error(description)] and [warning(description)]. *)
Definition error (d : diag) : M unit :=
  fun s => (Ok tt, mkState (errors s ++ [(namespace s, d)]) (warnings s) (namespace s)).

Definition warning (w : warn) : M unit :=
  fun s => (Ok tt, mkState (errors s) (warnings s ++ [(namespace s, w)]) (namespace s)).

Definition set_namespace (ns : string) : M unit :=
  fun s => (Ok tt, mkState (errors s) (warnings s) ns).

(** A [for] loop threading the loop-carried variables [b]; [continue]
    is an early [ret] of the body. *)
Fixpoint fold_m {A B} (l : list A) (b : B) (body : B -> A -> M B) : M B :=
  match l with
  | [] => ret b
  | x :: xs => b' <- body b x ;; fold_m xs b' body
  end.

Definition for_each {A} (l : list A) (body : A -> M unit) : M unit :=
  fold_m l tt (fun _ x => body x).

(** ** Python operations on values *)

Definition key_in {A} (k : string) (kvs : list (string * A)) : bool :=
  existsb (fun p => String.eqb k (fst p)) kvs.

Fixpoint lookup {A} (k : string) (kvs : list (string * A)) : option A :=
  match kvs with
  | [] => None
  | (k', v) :: t => if String.eqb k k' then Some v else lookup k t
  end.

(** [needle in haystack] for two Python strings. *)
Fixpoint str_contains (needle hay : string) : bool :=
  prefix needle hay ||
  match hay with
  | EmptyString => false
  | String _ t => str_contains needle t
  end.

Definition json_is_str (v : json) (s : string) : bool :=
  match v with JStr s' => String.eqb s' s | _ => false end.

(** [k in container] for a string [k]. *)
Definition py_contains (k : string) (c : json) : outcome bool :=
  match c with
  | JObj kvs => Ok (key_in k kvs)
  | JList l => Ok (existsb (fun v => json_is_str v k) l)
  | JStr s => Ok (str_contains k s)
  | _ => Raise TypeError
  end.

(** [container[k]] for a string [k]. *)
Definition py_getitem (c : json) (k : string) : outcome json :=
  match c with
  | JObj kvs =>
      match lookup k kvs with
      | Some v => Ok v
      | None => Raise (KeyError (Some k))
      end
  | _ => Raise TypeError
  end.

Fixpoint chars (s : string) : list json :=
  match s with
  | EmptyString => []
  | String c t => JStr (String c EmptyString) :: chars t
  end.

(** The elements a [for] loop visits. *)
Definition py_iter (c : json) : outcome (list json) :=
  match c with
  | JObj kvs => Ok (map (fun p => JStr (fst p)) kvs)
  | JList l => Ok l
  | JStr s => Ok (chars s)
  | _ => Raise TypeError
  end.

(** [d.get(k, default)]. *)
Definition py_dict_get (c : json) (k : string) (default : json) : outcome json :=
  match c with
  | JObj kvs => match lookup k kvs with Some v => Ok v | None => Ok default end
  | _ => Raise AttributeError
  end.

(** [isinstance(v, int)]: [bool] is a subclass of [int]. *)
Definition py_int_value (v : json) : option Z :=
  match v with
  | JInt z => Some z
  | JBool b => Some (if b then 1 else 0)%Z
  | _ => None
  end.

(** Python truthiness of the optional [json_name] argument. *)
Definition truthy_name (n : option string) : option string :=
  match n with
  | Some s => if String.eqb s "" then None else Some s
  | None => None
  end.

(** ** [check_keys], [error_on_duplicate_keys], [load_data] *)

(** One iteration of the loop of [check_keys]. *)
Definition check_key_step (data : json) (json_name : option string)
    (key_not_found : bool) (key : string) : M bool :=
  present <- lift (py_contains key data) ;;
  if present then ret key_not_found
  else error (DRequired key (truthy_name json_name)) ;;; ret true.

Definition check_keys (data : json) (required_keys : list string)
    (json_name : option string) : M unit :=
  key_not_found <- fold_m required_keys false (check_key_step data json_name) ;;
  if key_not_found then raise (KeyError None) else ret tt.

(** One iteration of the loop of [error_on_duplicate_keys]. *)
Definition duplicate_step (data : list (string * json)) (kv : string * json)
    : M (list (string * json)) :=
  if key_in (fst kv) data
  then error (DDuplicateKey (fst kv)) ;;; ret data
  else ret (data ++ [kv])%list.

Definition error_on_duplicate_keys (ordered_pairs : list (string * json)) : M json :=
  data <- fold_m ordered_pairs [] duplicate_step ;;
  ret (JObj data).

(** [json.load(f, object_pairs_hook=error_on_duplicate_keys)]: the values
    of an object are decoded in document order, then the hook is called
    on its pairs. *)
Fixpoint decode (r : raw) : M json :=
  match r with
  | RNull => ret JNull
  | RBool b => ret (JBool b)
  | RInt z => ret (JInt z)
  | RFloat f => ret (JFloat f)
  | RStr s => ret (JStr s)
  | RList l =>
      vs <- (fix go (l : list raw) : M (list json) :=
               match l with
               | [] => ret []
               | x :: xs => v <- decode x ;; vs <- go xs ;; ret (v :: vs)
               end) l ;;
      ret (JList vs)
  | RObj ps =>
      kvs <- (fix go (ps : list (string * raw)) : M (list (string * json)) :=
                match ps with
                | [] => ret []
                | (k, x) :: xs => v <- decode x ;; kvs <- go xs ;; ret ((k, v) :: kvs)
                end) ps ;;
      error_on_duplicate_keys kvs
  end.

(** [load_data(json_file, required_keys)]; Python's [None] is [JNull]. *)
Definition load_data (f : file_content) (required_keys : list string) : M json :=
  match f with
  | FMissing => error DFileNotExists ;;; ret JNull
  | FInvalid => error DInvalidJson ;;; ret JNull
  | FJson r =>
      data <- decode r ;;
      catch_KeyError (check_keys data required_keys None ;;; ret data) (ret JNull)
  end.

(** ** The environment of a run

    The package files, directory listings and environment variables the
    script reads; [BASE_DIR] is fixed and every path below is relative to
    it. *)

(** [statement/index.md]: missing ([IOError], caught), not decodable as
    text ([UnicodeDecodeError], a [ValueError], not caught), or its lines
    as [readlines] returns them. *)
Inductive statement_content :=
| SMissing
| SUndecodable
| SLines (lines : list string).

Record env := mkEnv {
  problem_file : file_content;
  subtasks_file : file_content;
  solutions_file : file_content;
  statement_file : statement_content;
  (** standard output of the [git config] pipeline, [None] when it exits
      with a non-zero status ([check_output] raises) *)
  git_origin : option string;
  web_terminal_env : option string;
  has_grader_env : option string;
  has_manager_env : option string;
  problem_name_env : option string;
  (** [os.listdir] of [validator/] and [solution/], [None] when the
      directory cannot be listed *)
  validator_listing : option (list string);
  solution_listing : option (list string);
  file_exists : string -> bool
}.

(** ** String helpers *)

Definition dq : string := String (ascii_of_nat 34) EmptyString.

Definition ends_with (suffix s : string) : bool :=
  let n := String.length s in
  let m := String.length suffix in
  (m <=? n)%nat && String.eqb (substring (n - m) m s) suffix.

(** [str.isspace] on one character (the ASCII part). *)
Definition is_space (c : ascii) : bool :=
  let n := nat_of_ascii c in
  ((9 <=? n) && (n <=? 13))%nat || ((28 <=? n) && (n <=? 32))%nat.

Fixpoint lstrip_with (p : ascii -> bool) (s : string) : string :=
  match s with
  | EmptyString => EmptyString
  | String c t => if p c then lstrip_with p t else s
  end.

Fixpoint rev_str (s : string) (acc : string) : string :=
  match s with
  | EmptyString => acc
  | String c t => rev_str t (String c acc)
  end.

Definition strip_with (p : ascii -> bool) (s : string) : string :=
  rev_str (lstrip_with p (rev_str (lstrip_with p s) EmptyString)) EmptyString.

(** [str.strip()] *)
Definition strip (s : string) : string := strip_with is_space s.

(** [bytes.strip()] strips only [b' \t\n\r\x0b\x0c']. *)
Definition bytes_strip (s : string) : string :=
  strip_with (fun c => let n := nat_of_ascii c in ((9 <=? n) && (n <=? 13))%nat || (n =? 32)%nat) s.

(** [c] lies in [lo..hi]. *)
Definition byte_in (c : ascii) (lo hi : nat) : bool :=
  (lo <=? nat_of_ascii c)%nat && (nat_of_ascii c <=? hi)%nat.

(** [bytes.decode('utf-8')]: the code points of a well-formed UTF-8 byte
    string, each kept as its own UTF-8 bytes (the encoding the strings of
    this development use); [None] where Python raises
    [UnicodeDecodeError] (a stray continuation byte, an overlong form, a
    surrogate, a code point above U+10FFFF or a truncated sequence). *)
Fixpoint utf8_decode (s : string) : option (list string) :=
  match s with
  | EmptyString => Some []
  | String c1 r1 =>
      let n := nat_of_ascii c1 in
      if (n <? 128)%nat then option_map (cons (String c1 EmptyString)) (utf8_decode r1)
      else if byte_in c1 194 223 then
        match r1 with
        | String c2 r2 =>
            if byte_in c2 128 191
            then option_map (cons (String c1 (String c2 EmptyString))) (utf8_decode r2)
            else None
        | EmptyString => None
        end
      else if byte_in c1 224 239 then
        let lo2 := if (n =? 224)%nat then 160%nat else 128%nat in
        let hi2 := if (n =? 237)%nat then 159%nat else 191%nat in
        match r1 with
        | String c2 (String c3 r3) =>
            if byte_in c2 lo2 hi2 && byte_in c3 128 191
            then option_map (cons (String c1 (String c2 (String c3 EmptyString)))) (utf8_decode r3)
            else None
        | _ => None
        end
      else if byte_in c1 240 244 then
        let lo2 := if (n =? 240)%nat then 144%nat else 128%nat in
        let hi2 := if (n =? 244)%nat then 143%nat else 191%nat in
        match r1 with
        | String c2 (String c3 (String c4 r4)) =>
            if byte_in c2 lo2 hi2 && byte_in c3 128 191 && byte_in c4 128 191
            then option_map (cons (String c1 (String c2 (String c3 (String c4 EmptyString)))))
                            (utf8_decode r4)
            else None
        | _ => None
        end
      else None
  end.

(** [s[:-4]] on the code points of a [str]. *)
Definition drop_last4 (cps : list string) : string :=
  String.concat EmptyString (firstn (length cps - 4) cps).

(** [s.replace('#', '')] *)
Fixpoint remove_hash (s : string) : string :=
  match s with
  | EmptyString => EmptyString
  | String c t => if Ascii.eqb c "#"%char then remove_hash t else String c (remove_hash t)
  end.

(** [s.split(' ')[0]] *)
Fixpoint split_space_first (s : string) : string :=
  match s with
  | EmptyString => EmptyString
  | String c t => if Ascii.eqb c " "%char then EmptyString else String c (split_space_first t)
  end.

(** ** [verify_problem] *)

Definition valid_problem_types : list string :=
  ["Batch"; "Communication"; "OutputOnly"; "TwoSteps"].

(** [f < 0.5] for a Python float. *)
Definition float_lt_half (f : pyfloat) : bool :=
  match f with
  | FFin q => negb (Qle_bool (1 # 2) q)
  | FInf positive => negb positive
  | FNaN => false
  end.

Definition web_terminal_true (e : env) : bool :=
  match web_terminal_env e with
  | Some v => String.eqb v "true"
  | None => false
  end.

(** The name check against the git remote (lines 111-118). *)
Definition check_name (e : env) (name : json) : M unit :=
  match name with
  | JStr n =>
      if web_terminal_true e then ret tt
      else match git_origin e with
           | None => raise CalledProcessError
           | Some out =>
               match utf8_decode (bytes_strip out) with
               | None => raise ValueError
               | Some cps =>
                   let git_origin_name := drop_last4 cps in
                   if String.eqb n git_origin_name then ret tt else warning WNameMismatch
               end
           end
  | _ => error DNameNotString
  end.

(** The statement title check (lines 123-140). *)
Definition check_statement (e : env) (title : json) : M unit :=
  match statement_file e with
  | SMissing => warning WStatementMissing
  | SUndecodable => raise ValueError
  | SLines lines =>
      match find (fun line => negb (String.eqb (strip line) EmptyString)) lines with
      | None => warning WStatementEmpty
      | Some first_line =>
          if negb (prefix "#" (strip first_line)) then warning WNoTitle
          else
            let statement_title := strip (remove_hash first_line) in
            if json_is_str title statement_title then ret tt
            else warning (WTitleMismatch title statement_title)
      end
  end.

(** Lines 161-162. *)
Definition check_time_limit (time_limit : json) : M unit :=
  match time_limit with
  | JFloat f => if float_lt_half f then error DTimeLimit else ret tt
  | _ => error DTimeLimit
  end.

(** Lines 164-166. *)
Definition check_memory_limit (memory : json) : M unit :=
  match py_int_value memory with
  | Some m => if (m <? 1)%Z || negb (Z.land m (m - 1) =? 0)%Z then error DMemoryLimit else ret tt
  | None => error DMemoryLimit
  end.

Definition verify_problem (e : env) : M json :=
  problem <- load_data (problem_file e) ["name"; "title"; "type"; "time_limit"; "memory_limit"] ;;
  match problem with
  | JNull => ret JNull
  | _ =>
      name <- lift (py_getitem problem "name") ;;
      check_name e name ;;;
      title <- lift (py_getitem problem "title") ;;
      (match title with JStr _ => ret tt | _ => error DTitleNotString end) ;;;
      check_statement e title ;;;
      type <- lift (py_getitem problem "type") ;;
      (match type with
       | JStr t => if existsb (String.eqb t) valid_problem_types then ret tt else error DTypeInvalid
       | _ => error DTypeInvalid
       end) ;;;
      has_grader <- lift (py_contains "has_grader" problem) ;;
      (if has_grader then
         g <- lift (py_getitem problem "has_grader") ;;
         match g with
         | JBool b => if json_is_str type "OutputOnly" && b then warning WOutputOnlyGrader else ret tt
         | _ => error DHasGraderNotBool
         end
       else ret tt) ;;;
      has_manager <- lift (py_contains "has_manager" problem) ;;
      (if has_manager then
         m <- lift (py_getitem problem "has_manager") ;;
         match m with
         | JBool b =>
             (if json_is_str type "Communication" && negb b then warning WCommunicationNoManager else ret tt) ;;;
             (if json_is_str type "OutputOnly" && b then warning WOutputOnlyManager else ret tt)
         | _ => error DHasManagerNotBool
         end
       else ret tt) ;;;
      time_limit <- lift (py_getitem problem "time_limit") ;;
      check_time_limit time_limit ;;;
      memory <- lift (py_getitem problem "memory_limit") ;;
      check_memory_limit memory ;;;
      ret problem
  end.

(** ** [str.format] with keyword arguments

    CPython's [MarkupIterator] and [parse_field] read a format string
    character by character; we follow them as a state machine.  A field
    is looked up as soon as it is complete, so an error in a later part of
    the string is only seen if every earlier field renders. *)

Inductive fmode :=
| MLit
| MOpen
| MClose
| MName (name : string)
| MBracket (name : string)
| MBang (name : string)
| MConv (name : string) (conv : ascii)
| MSpec (name : string) (conv : option ascii) (spec : string) (depth : nat).

Definition snoc (s : string) (c : ascii) : string := s ++ String c EmptyString.

(** The part of a field name before the first ['.'] or ['['], and the rest. *)
Fixpoint split_first_part (s : string) : string * string :=
  match s with
  | EmptyString => (EmptyString, EmptyString)
  | String c t =>
      if Ascii.eqb c "."%char || Ascii.eqb c "["%char then (EmptyString, s)
      else let (a, b) := split_first_part t in (String c a, b)
  end.

Definition PY_SSIZE_T_MAX : Z := (2 ^ 63 - 1)%Z.

Definition digit_value (c : ascii) : option Z :=
  let n := nat_of_ascii c in
  if ((48 <=? n) && (n <=? 57))%nat then Some (Z.of_nat n - 48)%Z else None.

(** [get_integer]: [Ok None] when the text is not all digits, [ValueError]
    when the number overflows [Py_ssize_t] first. *)
Fixpoint get_integer_from (acc : Z) (s : string) : outcome (option Z) :=
  match s with
  | EmptyString => Ok (Some acc)
  | String c t =>
      match digit_value c with
      | None => Ok None
      | Some d =>
          if (Z.div (PY_SSIZE_T_MAX - d) 10 <? acc)%Z then Raise ValueError
          else get_integer_from (acc * 10 + d)%Z t
      end
  end.

Definition get_integer (s : string) : outcome (option Z) :=
  match s with
  | EmptyString => Ok None
  | _ => get_integer_from 0 s
  end.

Section Script.

(** The rendering of a found value through the rest of a field: an
    attribute or index chain, a conversion ([!r], [!s], [!a], ...) and a
    format spec (itself formatted when it holds fields).  It is only used
    for fields that have one of these parts. *)
Variable render_tail : string -> string -> option ascii -> string -> outcome string.

(** The order in which a Python set of strings built from the given
    elements is enumerated (hash order). *)
Variable set_elements : list string -> list string.

(** [render_field] with only keyword arguments: an empty or numeric first
    part indexes the empty positional [args] tuple. *)
Definition render_field (kwargs : list (string * string)) (field_name : string)
    (conv : option ascii) (spec : string) : outcome string :=
  let (first, rest) := split_first_part field_name in
  match get_integer first with
  | Raise e => Raise e
  | Ok idx =>
      if String.eqb first "" then Raise IndexError
      else match idx with
           | Some _ => Raise IndexError
           | None =>
               match lookup first kwargs with
               | None => Raise (KeyError (Some first))
               | Some v =>
                   match rest, conv, spec with
                   | EmptyString, None, EmptyString => Ok v
                   | _, _, _ => render_tail v rest conv spec
                   end
               end
           end
  end.

Definition finish_field (kwargs : list (string * string)) (name : string)
    (conv : option ascii) (spec : string) (out : string) : outcome (fmode * string) :=
  match render_field kwargs name conv spec with
  | Ok v => Ok (MLit, out ++ v)
  | Raise e => Raise e
  end.

(** One character of a field name ([parse_field]'s first loop). *)
Definition name_step (kwargs : list (string * string)) (name : string) (c : ascii)
    (out : string) : outcome (fmode * string) :=
  if Ascii.eqb c "{"%char then Raise ValueError
  else if Ascii.eqb c "["%char then Ok (MBracket (snoc name c), out)
  else if Ascii.eqb c "}"%char then finish_field kwargs name None EmptyString out
  else if Ascii.eqb c ":"%char then Ok (MSpec name None EmptyString 1, out)
  else if Ascii.eqb c "!"%char then Ok (MBang name, out)
  else Ok (MName (snoc name c), out).

Definition fmt_step (kwargs : list (string * string)) (st : fmode * string) (c : ascii)
    : outcome (fmode * string) :=
  let (m, out) := st in
  match m with
  | MLit =>
      if Ascii.eqb c "{"%char then Ok (MOpen, out)
      else if Ascii.eqb c "}"%char then Ok (MClose, out)
      else Ok (MLit, snoc out c)
  | MOpen =>
      if Ascii.eqb c "{"%char then Ok (MLit, snoc out c)
      else name_step kwargs EmptyString c out
  | MClose =>
      if Ascii.eqb c "}"%char then Ok (MLit, snoc out c) else Raise ValueError
  | MName name => name_step kwargs name c out
  | MBracket name =>
      if Ascii.eqb c "]"%char then Ok (MName (snoc name c), out)
      else Ok (MBracket (snoc name c), out)
  | MBang name => Ok (MConv name c, out)
  | MConv name conv =>
      if Ascii.eqb c "}"%char then finish_field kwargs name (Some conv) EmptyString out
      else if Ascii.eqb c ":"%char then Ok (MSpec name (Some conv) EmptyString 1, out)
      else Raise ValueError
  | MSpec name conv spec depth =>
      if Ascii.eqb c "{"%char then Ok (MSpec name conv (snoc spec c) (S depth), out)
      else if Ascii.eqb c "}"%char then
        if (depth =? 1)%nat then finish_field kwargs name conv spec out
        else Ok (MSpec name conv (snoc spec c) (pred depth), out)
      else Ok (MSpec name conv (snoc spec c) depth, out)
  end.

Fixpoint fmt_run (kwargs : list (string * string)) (st : fmode * string) (s : string)
    : outcome (fmode * string) :=
  match s with
  | EmptyString => Ok st
  | String c t =>
      match fmt_step kwargs st c with
      | Ok st' => fmt_run kwargs st' t
      | Raise e => Raise e
      end
  end.

(** [s.format(subtask=...)]: the string must end outside any field. *)
Definition str_format (s : string) (kwargs : list (string * string)) : outcome string :=
  match fmt_run kwargs (MLit, EmptyString) s with
  | Ok (MLit, out) => Ok out
  | Ok _ => Raise ValueError
  | Raise e => Raise e
  end.

(** ** [verify_subtasks] *)

Definition k_glob : string := "global_validators".
Definition k_sub : string := "subtask_sensitive_validators".
Definition subtask_placeholder_var : string := "subtask".
Definition subtask_placeholder_substitute : string := "___SUBTASK_PLACEHOLDER_SUBSTITUTE___".

Definition is_ignored (file_name : string) : bool :=
  ends_with ".exe" file_name || ends_with ".class" file_name || ends_with "~" file_name.

Definition get_list_of_files (listing : option (list string)) : outcome (list string) :=
  match listing with
  | None => Raise OSError
  | Some l => Ok (filter (fun f => negb (is_ignored f)) l)
  end.

Fixpoint enumerate {A} (i : Z) (l : list A) : list (Z * A) :=
  match l with
  | [] => []
  | x :: xs => (i, x) :: enumerate (i + 1)%Z xs
  end.

Definition set_add_str (s : list string) (x : string) : list string :=
  if existsb (String.eqb x) s then s else (s ++ [x])%list.

(** The nested [check_validator_key]; it returns [used_validators]. *)
Definition check_validator_key (validator_files used_validators : list string)
    (parent : json) (key name : string) (parName : option string) : M (list string) :=
  present <- lift (py_contains key parent) ;;
  if negb present then ret used_validators
  else
    validators_list <- lift (py_getitem parent key) ;;
    let parLoc := match parName with
                  | None => EmptyString
                  | Some p => " in " ++ dq ++ p ++ dq
                  end in
    match validators_list with
    | JList l =>
        fold_m (enumerate 0 l) used_validators (fun used iv =>
          match snd iv with
          | JStr validator_cmd_line =>
              let validator_cmd := split_space_first validator_cmd_line in
              if str_contains "." validator_cmd then
                if existsb (String.eqb validator_cmd) validator_files
                then ret (set_add_str used validator_cmd)
                else error (DValidatorFileNotFound name validator_cmd parLoc) ;;; ret used
              else ret used
          | _ => error (DValidatorNotString name (fst iv + 1) parLoc) ;;; ret used
          end)
    | _ => error (DNotArray key parLoc) ;;; ret used_validators
    end.

(** One iteration of the placeholder loop (lines 212-220). *)
Definition check_subtask_sensitive_validator (v : json) : M unit :=
  match v with
  | JStr s =>
      match str_format s [(subtask_placeholder_var, subtask_placeholder_substitute)] with
      | Raise (KeyError (Some k)) => error (DUnknownPlaceholder s k)
      | Raise (KeyError None) => raise IndexError
      | Raise e => raise e
      | Ok subtask_validator_substituted =>
          if str_contains subtask_placeholder_substitute subtask_validator_substituted
          then ret tt
          else error (DNoPlaceholder s)
      end
  | _ => raise AttributeError
  end.

Definition check_placeholders (subtasks_data : json) : M unit :=
  sensitive <- lift (py_dict_get subtasks_data k_sub (JList [])) ;;
  entries <- lift (py_iter sensitive) ;;
  for_each entries check_subtask_sensitive_validator.

(** Python's [==] between an [int] and a value, as set membership uses it. *)
Definition py_eq_int (z : Z) (v : json) : bool :=
  match v with
  | JInt z' => Z.eqb z z'
  | JBool b => Z.eqb z (if b then 1 else 0)
  | JFloat (FFin q) => Qeq_bool q (inject_Z z)
  | _ => false
  end.

(** [indexes.add(v)]: lists and dicts are unhashable. *)
Definition set_add_json (s : list json) (v : json) : outcome (list json) :=
  match v with
  | JList _ | JObj _ => Raise TypeError
  | _ => Ok (s ++ [v])%list
  end.

Definition py_items (c : json) : outcome (list (string * json)) :=
  match c with
  | JObj kvs => Ok kvs
  | _ => Raise AttributeError
  end.

(** [hasSamples] (lines 224-230); [problem] is the global set by [verify]. *)
Definition has_samples_check (problem subtasks : json) : M bool :=
  catch_KeyError
    (type <- lift (py_getitem problem "type") ;;
     if json_is_str type "OutputOnly" then ret false
     else check_keys subtasks ["samples"] None ;;; ret true)
    (ret false).

(** The loop-carried [indexes], [score_sum] and [used_validators]. *)
Record subtask_acc := mkAcc {
  acc_indexes : list json;
  acc_score_sum : Z;
  acc_used : list string
}.

(** One iteration of the loop over [subtasks.items()] (lines 235-255). *)
Definition subtask_step (validator_files : list string) (a : subtask_acc)
    (item : string * json) : M subtask_acc :=
  let (name, data) := item in
  match data with
  | JObj _ =>
      ok <- catch_KeyError (check_keys data ["index"; "score"] (Some name) ;;; ret true) (ret false) ;;
      if negb ok then ret a
      else
        index <- lift (py_getitem data "index") ;;
        indexes <- lift (set_add_json (acc_indexes a) index) ;;
        score <- lift (py_getitem data "score") ;;
        score_sum <- (match py_int_value score with
                      | Some sc =>
                          if (sc <? 0)%Z then error (DScoreNotNonNegative name) ;;; ret (acc_score_sum a)
                          else if String.eqb name "samples" then
                            (if (sc =? 0)%Z then ret tt else error DSamplesNonZero) ;;; ret (acc_score_sum a)
                          else ret (acc_score_sum a + sc)%Z
                      | None => error (DScoreNotNonNegative name) ;;; ret (acc_score_sum a)
                      end) ;;
        used <- check_validator_key validator_files (acc_used a) data "validators" "subtask" (Some name) ;;
        ret (mkAcc indexes score_sum used)
  | _ => error (DInvalidData name) ;;; ret a
  end.

(** The missing-index loop (lines 263-265). *)
Definition check_indexes (has_samples : bool) (n : nat) (indexes : list json) : M unit :=
  for_each (map Z.of_nat (seq 0 n)) (fun i =>
    if existsb (py_eq_int (i + if has_samples then 0 else 1)%Z) indexes then ret tt
    else error (DMissingIndex i)).

Definition verify_subtasks (e : env) (problem : json) : M json :=
  subtasks_data <- load_data (subtasks_file e) ["subtasks"] ;;
  match subtasks_data with
  | JNull => ret JNull
  | _ =>
      glob_present <- lift (py_contains k_glob subtasks_data) ;;
      neither <- (if glob_present then ret false
                  else sub_present <- lift (py_contains k_sub subtasks_data) ;; ret (negb sub_present)) ;;
      if neither then error DNeitherValidatorKey ;;; ret JNull
      else
        files <- lift (get_list_of_files (validator_listing e)) ;;
        let validator_files :=
          filter (fun f => negb (String.eqb f "testlib.h" || String.eqb f "Makefile")) files in
        used <- check_validator_key validator_files [] subtasks_data k_glob "global" None ;;
        used <- check_validator_key validator_files used subtasks_data k_sub "subtask-sensitive" None ;;
        check_placeholders subtasks_data ;;;
        subtasks <- lift (py_getitem subtasks_data "subtasks") ;;
        hasSamples <- has_samples_check problem subtasks ;;
        items <- lift (py_items subtasks) ;;
        a <- fold_m items (mkAcc [] 0 used) (subtask_step validator_files) ;;
        for_each (set_elements (filter (fun f => negb (existsb (String.eqb f) (acc_used a))) validator_files))
          (fun f => warning (WUnusedValidator f)) ;;;
        (if (acc_score_sum a =? 100)%Z then ret tt else error (DScoreSum (acc_score_sum a))) ;;;
        check_indexes hasSamples (length items) (acc_indexes a) ;;;
        ret subtasks
  end.

(** ** [verify_solutions] *)

Definition model_solution_verdict : string := "model_solution".

Definition valid_verdicts : list string :=
  [model_solution_verdict; "correct"; "time_limit"; "memory_limit"; "incorrect";
   "runtime_error"; "failed"; "time_limit_and_runtime_error"; "partially_correct"].

Definition verify_verdict (verdict : json) (key_name : string) : M bool :=
  match verdict with
  | JStr v => if existsb (String.eqb v) valid_verdicts then ret true
              else error (DVerdict key_name) ;;; ret false
  | _ => error (DVerdict key_name) ;;; ret false
  end.

(** The loop of [get_model_solution] over [enumerate(solutions)];
    [data['verdict'] == model_solution_verdict] is [False] for a value
    that is not a string. *)
Fixpoint get_model_solution_from (l : list (Z * json)) : outcome (option Z) :=
  match l with
  | [] => Ok None
  | (solution, data) :: t =>
      match data with
      | JObj d =>
          if key_in "verdict" d then
            match py_getitem data "verdict" with
            | Ok v => if json_is_str v model_solution_verdict then Ok (Some solution)
                      else get_model_solution_from t
            | Raise e => Raise e
            end
          else get_model_solution_from t
      | _ => get_model_solution_from t
      end
  end.

(** [get_model_solution(solutions)] (lines 277-281); falling off the end
    returns [None]. *)
Definition get_model_solution (solutions : json) : outcome (option Z) :=
  match py_iter solutions with
  | Ok l => get_model_solution_from (enumerate 0 l)
  | Raise e => Raise e
  end.

(** [solution not in solution_files]: membership in a set of strings. *)
Definition in_solution_files (files : list string) (v : json) : outcome bool :=
  match v with
  | JList _ | JObj _ => Raise TypeError
  | JStr s => Ok (existsb (String.eqb s) files)
  | _ => Ok false
  end.

Definition remove_str (files : list string) (s : string) : list string :=
  filter (fun f => negb (String.eqb f s)) files.

(** The [except] mapping of one solution (lines 311-320). *)
Definition check_except (subtasks : json) (solution : string) (data : json) : M unit :=
  has_except <- lift (py_contains "except" data) ;;
  if negb has_except then ret tt
  else
    exceptions <- lift (py_getitem data "except") ;;
    match exceptions with
    | JObj kvs =>
        for_each kvs (fun kv =>
          defined <- lift (py_contains (fst kv) subtasks) ;;
          if negb defined then error (DSubtaskNotDefined (fst kv))
          else verify_verdict (snd kv) (solution ++ ".except." ++ fst kv) ;;; ret tt)
    | _ => error (DInvalidExcept solution)
    end.

(** The loop-carried [model_solution] and [solution_files]. *)
Record solution_acc := mkSolAcc {
  acc_model : option string;
  acc_files : list string
}.

(** One iteration of the loop over [solutions] (lines 293-320). *)
Definition solution_step (solutions subtasks : json) (a : solution_acc) (solution : json)
    : M solution_acc :=
  present <- lift (in_solution_files (acc_files a) solution) ;;
  if negb present then error (DNotExists solution) ;;; ret a
  else
    match solution with
    | JStr sname =>
        let files := remove_str (acc_files a) sname in
        data <- lift (py_getitem solutions sname) ;;
        ok <- catch_KeyError (check_keys data ["verdict"] (Some sname) ;;; ret true) (ret false) ;;
        if negb ok then ret (mkSolAcc (acc_model a) files)
        else
          verdict <- lift (py_getitem data "verdict") ;;
          verified <- verify_verdict verdict sname ;;
          model <- (if verified && json_is_str verdict model_solution_verdict then
                      (match acc_model a with Some _ => error DMoreThanOneModel | None => ret tt end) ;;;
                      ret (Some sname)
                    else ret (acc_model a)) ;;
          check_except subtasks sname data ;;;
          ret (mkSolAcc model files)
    | _ => ret a
    end.

Definition verify_solutions (e : env) (subtasks : json) : M json :=
  solutions <- load_data (solutions_file e) [] ;;
  match solutions, subtasks with
  | JNull, _ | _, JNull => ret solutions
  | _, _ =>
      files <- lift (get_list_of_files (solution_listing e)) ;;
      names <- lift (py_iter solutions) ;;
      a <- fold_m names (mkSolAcc None files) (solution_step solutions subtasks) ;;
      (match acc_model a with None => error DNoModel | Some _ => ret tt end) ;;;
      for_each (set_elements (acc_files a)) (fun s => error (DNotRepresented s)) ;;;
      ret solutions
  end.

(** ** [verify_existence] and [verify] *)

Definition verify_existence (e : env) (files : list string) : M unit :=
  for_each files (fun file => if file_exists e file then ret tt else error (DNotFound file)).

Definition necessary_files : list string :=
  ["checker/testlib.h"; "checker/Makefile"; "checker/checker.cpp";
   "validator/testlib.h"; "validator/Makefile";
   "gen/testlib.h"; "gen/Makefile"; "gen/data"].

(** [java_enabled = True], [pascal_enabled = False]; ['%s' % None] is
    ["None"]. *)
Definition grader_necessary_files (e : env) : list string :=
  let pname := match problem_name_env e with Some n => n | None => "None" end in
  ["grader/cpp/" ++ pname ++ ".h"; "grader/cpp/grader.cpp"; "grader/java/grader.java"].

Definition manager_necessary_files : list string :=
  ["grader/Makefile"; "grader/manager.cpp"].

Definition env_true (v : option string) : bool :=
  match v with Some s => String.eqb s "true" | None => false end.

(** [verify()] up to the printing of the diagnostics; the global [problem]
    is passed to [verify_subtasks]. *)
Definition verify (e : env) : M unit :=
  set_namespace "problem.json" ;;;
  problem <- verify_problem e ;;
  set_namespace "subtasks.json" ;;;
  subtasks <- verify_subtasks e problem ;;
  set_namespace "solutions.json" ;;;
  verify_solutions e subtasks ;;;
  set_namespace "not found" ;;;
  verify_existence e necessary_files ;;;
  (if env_true (has_grader_env e) then verify_existence e (grader_necessary_files e) else ret tt) ;;;
  (if env_true (has_manager_env e) then verify_existence e manager_necessary_files else ret tt).

End Script.

(** ** The text of the diagnostics *)

Fixpoint decimal_aux (fuel : nat) (n : N) (acc : string) : string :=
  match fuel with
  | O => acc
  | S f =>
      let acc' := String (ascii_of_N (48 + N.modulo n 10)) acc in
      if (n <? 10)%N then acc' else decimal_aux f (N.div n 10) acc'
  end.

(** [str(n)] for a Python [int]. *)
Definition str_int (z : Z) : string :=
  match z with
  | Z0 => "0"
  | Zpos p => decimal_aux (S (Pos.size_nat p)) (Npos p) EmptyString
  | Zneg p => "-" ++ decimal_aux (S (Pos.size_nat p)) (Npos p) EmptyString
  end.

Fixpoint join (sep : string) (l : list string) : string :=
  match l with
  | [] => EmptyString
  | [x] => x
  | x :: xs => x ++ sep ++ join sep xs
  end.

Section Render.

(** [str(v)] of a float, list or dict, which only [DNotExists] can show. *)
Variable str_other : json -> string.

Definition py_str (v : json) : string :=
  match v with
  | JNull => "None"
  | JBool true => "True"
  | JBool false => "False"
  | JInt z => str_int z
  | JStr s => s
  | _ => str_other v
  end.

Definition render_diag (d : diag) : string :=
  match d with
  | DDuplicateKey k => "duplicate key: " ++ k
  | DInvalidJson => "invalid json"
  | DFileNotExists => "file does not exists"
  | DRequired k (Some n) => k ++ " is required in " ++ n
  | DRequired k None => k ++ " is required"
  | DNameNotString => "name is not a string"
  | DTitleNotString => "title is not a string"
  | DTypeInvalid => "type should be one of " ++ join "/" valid_problem_types
  | DHasGraderNotBool => "has_grader should be a boolean"
  | DHasManagerNotBool => "has_manager should be a boolean"
  | DTimeLimit => "time_limit should be a number greater or equal to 0.5"
  | DMemoryLimit => "memory_limit should be an integer that is a power of two"
  | DNeitherValidatorKey =>
      "Neither " ++ dq ++ k_glob ++ dq ++ " nor " ++ dq ++ k_sub ++ dq
      ++ " is present in " ++ dq ++ "subtasks.json" ++ dq ++ "."
  | DNotArray k parLoc => dq ++ k ++ dq ++ " is not an array" ++ parLoc
  | DValidatorNotString name i parLoc =>
      name ++ " validator #" ++ str_int i ++ " is not a string" ++ parLoc
  | DValidatorFileNotFound name cmd parLoc =>
      "File not found for " ++ name ++ " validator " ++ dq ++ cmd ++ dq ++ parLoc
  | DUnknownPlaceholder v k =>
      "Subtask-sensitive validator " ++ dq ++ v ++ dq
      ++ " contains unknown placeholder {" ++ k ++ "}."
  | DNoPlaceholder v =>
      "Subtask-sensitive validator " ++ dq ++ v ++ dq
      ++ " does not contain the subtask placeholder {" ++ subtask_placeholder_var ++ "}."
  | DInvalidData name => "invalid data in " ++ name
  | DScoreNotNonNegative name => "score should be a non-negative integer in subtask " ++ name
  | DSamplesNonZero => "samples subtask score is non-zero"
  | DScoreSum n => "sum of scores is " ++ str_int n
  | DMissingIndex i => "missing index " ++ str_int i ++ " in subtask indexes"
  | DVerdict k => k ++ " verdict should be one of " ++ join "/" valid_verdicts
  | DMoreThanOneModel => "there is more than one model solutions"
  | DNotExists v => py_str v ++ " does not exists"
  | DInvalidExcept sol => "invalid except format in " ++ sol
  | DSubtaskNotDefined k =>
      "subtask " ++ dq ++ k ++ dq ++ " is not defined and cannot be used in except"
  | DNoModel => "there is no model solution"
  | DNotRepresented sol => sol ++ " is not represented"
  | DNotFound file => file
  end.

(** The line [error()] appends to [errors]. *)
Definition render_error (entry : string * diag) : string :=
  "ERROR: " ++ fst entry ++ " - " ++ render_diag (snd entry).

End Render.

(** * Properties *)

Local Open Scope list_scope.

(** ** Reasoning about the monad *)

Definition add_errors (s : state) (ds : list diag) : state :=
  mkState (errors s ++ map (pair (namespace s)) ds) (warnings s) (namespace s).

Lemma add_errors_nil s : add_errors s [] = s.
Proof. destruct s; unfold add_errors; simpl; rewrite app_nil_r; reflexivity. Qed.

Lemma add_errors_app s a b : add_errors (add_errors s a) b = add_errors s (a ++ b).
Proof. destruct s; unfold add_errors; simpl; rewrite map_app, app_assoc; reflexivity. Qed.

Lemma error_add s d : error d s = (Ok tt, add_errors s [d]).
Proof. reflexivity. Qed.

Lemma bind_ok_inv {A B} (m : M A) (f : A -> M B) s b s' :
  bind m f s = (Ok b, s') -> exists a s1, m s = (Ok a, s1) /\ f a s1 = (Ok b, s').
Proof.
  unfold bind. destruct (m s) as [[a|e] s1]; intro H; [eauto | discriminate].
Qed.

Lemma bind_ok {A B} (m : M A) (f : A -> M B) s a s1 :
  m s = (Ok a, s1) -> bind m f s = f a s1.
Proof. unfold bind. intros ->. reflexivity. Qed.

(** [adds_only P m]: running [m] keeps the namespace and only appends
    errors whose description satisfies [P]. *)
Definition adds_only {A} (P : diag -> Prop) (m : M A) : Prop :=
  forall s r s', m s = (r, s') ->
    namespace s' = namespace s /\
    exists new, errors s' = errors s ++ new /\ Forall (fun p => P (snd p)) new.

Section AddsOnly.
Variable P : diag -> Prop.

Lemma adds_ret {A} (a : A) : adds_only P (ret a).
Proof.
  intros s r s' H. injection H as _ <-. split; [reflexivity|].
  exists []. rewrite app_nil_r. auto.
Qed.

Lemma adds_raise {A} e : adds_only P (@raise A e).
Proof.
  intros s r s' H. injection H as _ <-. split; [reflexivity|].
  exists []. rewrite app_nil_r. auto.
Qed.

Lemma adds_lift {A} (o : outcome A) : adds_only P (lift o).
Proof.
  intros s r s' H. injection H as _ <-. split; [reflexivity|].
  exists []. rewrite app_nil_r. auto.
Qed.

Lemma adds_error d : P d -> adds_only P (error d).
Proof.
  intros Hd s r s' H. injection H as _ <-. split; [reflexivity|].
  exists [(namespace s, d)]. simpl. auto.
Qed.

Lemma adds_warning w : adds_only P (warning w).
Proof.
  intros s r s' H. injection H as _ <-. split; [reflexivity|].
  exists []. simpl. rewrite app_nil_r. auto.
Qed.

Lemma adds_bind {A B} (m : M A) (f : A -> M B) :
  adds_only P m -> (forall a, adds_only P (f a)) -> adds_only P (bind m f).
Proof.
  intros Hm Hf s r s' H. unfold bind in H.
  destruct (m s) as [[a|e] s1] eqn:E.
  - destruct (Hm _ _ _ E) as [N1 [n1 [E1 F1]]].
    destruct (Hf a _ _ _ H) as [N2 [n2 [E2 F2]]].
    split; [congruence|]. exists (n1 ++ n2).
    rewrite E2, E1, app_assoc. split; [reflexivity|]. apply Forall_app; auto.
  - injection H as _ <-. apply (Hm _ _ _ E).
Qed.

Lemma adds_try {A} (m : M A) h :
  adds_only P m -> (forall e k, h e = Some k -> adds_only P k) ->
  adds_only P (try_except m h).
Proof.
  intros Hm Hh s r s' H. unfold try_except in H.
  destruct (m s) as [[a|e] s1] eqn:E.
  - injection H as _ <-. apply (Hm _ _ _ E).
  - destruct (Hm _ _ _ E) as [N1 [n1 [E1 F1]]].
    destruct (h e) as [k|] eqn:He.
    + destruct (Hh e k He _ _ _ H) as [N2 [n2 [E2 F2]]].
      split; [congruence|]. exists (n1 ++ n2).
      rewrite E2, E1, app_assoc. split; [reflexivity|]. apply Forall_app; auto.
    + injection H as _ <-. split; [assumption|]. eauto.
Qed.

Lemma adds_catch {A} (m k : M A) :
  adds_only P m -> adds_only P k -> adds_only P (catch_KeyError m k).
Proof.
  intros Hm Hk. apply adds_try; [assumption|].
  intros [] k' He; try discriminate. injection He as <-. assumption.
Qed.

Lemma adds_fold {A B} (body : B -> A -> M B) :
  (forall b x, adds_only P (body b x)) -> forall l b, adds_only P (fold_m l b body).
Proof.
  intros Hb l. induction l as [|x l IH]; intros b; simpl.
  - apply adds_ret.
  - apply adds_bind; auto.
Qed.

Lemma adds_for_each {A} (l : list A) body :
  (forall x, adds_only P (body x)) -> adds_only P (for_each l body).
Proof. intros H. apply adds_fold. auto. Qed.

End AddsOnly.

(** Unfolds a program into the combinators above. *)
Ltac adds_tac :=
  repeat match goal with
  | |- adds_only _ (bind _ _) => apply adds_bind; intros
  | |- adds_only _ (ret _) => apply adds_ret
  | |- adds_only _ (raise _) => apply adds_raise
  | |- adds_only _ (lift _) => apply adds_lift
  | |- adds_only _ (error _) => apply adds_error; simpl; auto
  | |- adds_only _ (warning _) => apply adds_warning
  | |- adds_only _ (catch_KeyError _ _) => apply adds_catch
  | |- adds_only _ (fold_m _ _ _) => apply adds_fold; intros
  | |- adds_only _ (for_each _ _) => apply adds_for_each; intros
  | |- adds_only _ (if ?b then _ else _) => destruct b
  | |- adds_only _ (match ?x with _ => _ end) => destruct x
  | |- adds_only _ (let (_, _) := ?p in _) => destruct p
  end.

(** ** Duplicate keys (C1) *)

(** The pairs of an object with every later occurrence of a key removed. *)
Definition remove_key {A} (k : string) (l : list (string * A)) : list (string * A) :=
  filter (fun p => negb (String.eqb k (fst p))) l.

Fixpoint dedup_first {A} (l : list (string * A)) : list (string * A) :=
  match l with
  | [] => []
  | (k, v) :: t => (k, v) :: remove_key k (dedup_first t)
  end.

(** The value a document denotes when the first occurrence of each key
    is kept. *)
Fixpoint to_json (r : raw) : json :=
  match r with
  | RNull => JNull
  | RBool b => JBool b
  | RInt z => JInt z
  | RFloat f => JFloat f
  | RStr s => JStr s
  | RList l => JList (map to_json l)
  | RObj ps => JObj (dedup_first (map (fun p => (fst p, to_json (snd p))) ps))
  end.

(** The number of second and later occurrences of a key, summed over the
    objects at every level of the document. *)
Fixpoint dup_count (r : raw) : nat :=
  match r with
  | RList l => list_sum (map dup_count l)
  | RObj ps =>
      (length ps - length (dedup_first ps))
      + list_sum (map (fun p => dup_count (snd p)) ps)
  | _ => 0
  end.

Section RawInd.
Variable P : raw -> Prop.
Hypothesis HNull : P RNull.
Hypothesis HBool : forall b, P (RBool b).
Hypothesis HInt : forall z, P (RInt z).
Hypothesis HFloat : forall f, P (RFloat f).
Hypothesis HStr : forall s, P (RStr s).
Hypothesis HList : forall l, Forall P l -> P (RList l).
Hypothesis HObj : forall ps, Forall (fun p => P (snd p)) ps -> P (RObj ps).

Fixpoint raw_nested_ind (r : raw) : P r :=
  match r with
  | RNull => HNull
  | RBool b => HBool b
  | RInt z => HInt z
  | RFloat f => HFloat f
  | RStr s => HStr s
  | RList l =>
      HList l ((fix go (l : list raw) : Forall P l :=
                  match l with
                  | [] => Forall_nil _
                  | x :: xs => Forall_cons _ (raw_nested_ind x) (go xs)
                  end) l)
  | RObj ps =>
      HObj ps ((fix go (ps : list (string * raw)) : Forall (fun p => P (snd p)) ps :=
                  match ps with
                  | [] => Forall_nil _
                  | p :: xs => Forall_cons _ (raw_nested_ind (snd p)) (go xs)
                  end) ps)
  end.
End RawInd.

Lemma filter_comm {A} (f g : A -> bool) l :
  filter f (filter g l) = filter g (filter f l).
Proof.
  induction l as [|x l IH]; simpl; [reflexivity|].
  destruct (g x) eqn:Eg, (f x) eqn:Ef; simpl; rewrite ?Eg, ?Ef, IH; reflexivity.
Qed.

Lemma remove_key_idem {A} k (l : list (string * A)) :
  remove_key k (remove_key k l) = remove_key k l.
Proof.
  unfold remove_key. induction l as [|[k' v] l IH]; simpl; [reflexivity|].
  destruct (String.eqb k k') eqn:E; simpl; rewrite ?E; simpl; congruence.
Qed.

Lemma remove_key_dedup {A} k (l : list (string * A)) :
  remove_key k (dedup_first l) = dedup_first (remove_key k l).
Proof.
  induction l as [|[k' v] l IH]; [reflexivity|].
  simpl. unfold remove_key at 1 3. simpl.
  destruct (String.eqb k k') eqn:E; simpl.
  - apply String.eqb_eq in E; subst k'.
    fold (remove_key k (remove_key k (dedup_first l))).
    rewrite remove_key_idem. exact IH.
  - fold (remove_key k (remove_key k' (dedup_first l))).
    fold (remove_key k l). rewrite <- IH.
    unfold remove_key. rewrite filter_comm. reflexivity.
Qed.

Lemma key_in_app {A} k (l1 l2 : list (string * A)) :
  key_in k (l1 ++ l2) = key_in k l1 || key_in k l2.
Proof. unfold key_in. apply existsb_app. Qed.

Lemma filter_notin_snoc {A} (acc : list (string * A)) k v (ps : list (string * A)) :
  filter (fun p => negb (key_in (fst p) (acc ++ [(k, v)]))) ps
  = remove_key k (filter (fun p => negb (key_in (fst p) acc)) ps).
Proof.
  unfold remove_key. induction ps as [|[k' v'] ps IH]; simpl; [reflexivity|].
  rewrite key_in_app. unfold key_in at 2. simpl.
  rewrite (String.eqb_sym k' k).
  destruct (key_in k' acc) eqn:E1, (String.eqb k k') eqn:E2; simpl;
    rewrite ?E1, ?E2; simpl; rewrite ?IH; reflexivity.
Qed.

(** The loop of [error_on_duplicate_keys] from a partial dict [acc]. *)
Lemma duplicate_fold_spec (ps acc : list (string * json)) s :
  exists ds,
    fold_m ps acc duplicate_step s =
      (Ok (acc ++ dedup_first (filter (fun p => negb (key_in (fst p) acc)) ps)),
       add_errors s (map DDuplicateKey ds)) /\
    (length ds + length (dedup_first (filter (fun p => negb (key_in (fst p) acc)) ps))
      = length ps)%nat.
Proof.
  revert acc s. induction ps as [|[k v] ps IH]; intros acc s.
  - exists []. simpl. rewrite app_nil_r, add_errors_nil. split; reflexivity.
  - simpl fold_m. unfold duplicate_step at 1. simpl fst.
    destruct (key_in k acc) eqn:Hk.
    + destruct (IH acc (add_errors s [DDuplicateKey k])) as [ds [E L]].
      exists (k :: ds). simpl filter. rewrite Hk. simpl negb. cbv iota.
      unfold bind at 1. rewrite (bind_ok _ _ _ _ _ (error_add s _)).
      cbn -[add_errors fold_m]. rewrite E, add_errors_app.
      split; [reflexivity | simpl; lia].
    + destruct (IH (acc ++ [(k, v)]) s) as [ds [E L]].
      exists ds. simpl filter. rewrite Hk. simpl negb. cbv iota.
      unfold bind at 1. cbn -[add_errors fold_m]. rewrite E.
      rewrite filter_notin_snoc in *. rewrite <- remove_key_dedup in *.
      simpl dedup_first. rewrite <- app_assoc. simpl. split; [reflexivity|].
      simpl. lia.
Qed.

Lemma remove_key_map {A B} (g : A -> B) k (l : list (string * A)) :
  remove_key k (map (fun p => (fst p, g (snd p))) l)
  = map (fun p => (fst p, g (snd p))) (remove_key k l).
Proof.
  unfold remove_key. induction l as [|[k' v] l IH]; simpl; [reflexivity|].
  destruct (negb (String.eqb k k')); simpl; rewrite IH; reflexivity.
Qed.

Lemma dedup_first_map {A B} (g : A -> B) (l : list (string * A)) :
  dedup_first (map (fun p => (fst p, g (snd p))) l)
  = map (fun p => (fst p, g (snd p))) (dedup_first l).
Proof.
  induction l as [|[k v] l IH]; simpl; [reflexivity|].
  rewrite IH, remove_key_map. reflexivity.
Qed.

Lemma list_sum_cons a l : list_sum (a :: l) = (a + list_sum l)%nat.
Proof. reflexivity. Qed.

Lemma filter_true {A} (l : list A) : filter (fun _ => true) l = l.
Proof. induction l; simpl; congruence. Qed.

Lemma error_on_duplicate_keys_spec kvs s :
  exists ds,
    error_on_duplicate_keys kvs s =
      (Ok (JObj (dedup_first kvs)), add_errors s (map DDuplicateKey ds)) /\
    (length ds + length (dedup_first kvs) = length kvs)%nat.
Proof.
  destruct (duplicate_fold_spec kvs [] s) as [ds [E L]].
  simpl in E, L. rewrite filter_true in E, L.
  exists ds. unfold error_on_duplicate_keys. rewrite (bind_ok _ _ _ _ _ E).
  split; [reflexivity | exact L].
Qed.

(** Decoding a document records one [duplicate key] error for each
    second or later occurrence of a key, in any object, and yields the
    document with the first occurrences kept. *)
Lemma decode_spec r s :
  exists ds,
    decode r s = (Ok (to_json r), add_errors s (map DDuplicateKey ds)) /\
    length ds = dup_count r.
Proof.
  revert s.
  induction r as [| b | z | f | str | l IHl | ps IHps] using raw_nested_ind;
    intros s; try (exists []; rewrite add_errors_nil; split; reflexivity).
  - assert (G : forall s, exists ds,
               (fix go (l : list raw) : M (list json) :=
                  match l with
                  | [] => ret []
                  | x :: xs => v <- decode x ;; vs <- go xs ;; ret (v :: vs)
                  end) l s = (Ok (map to_json l), add_errors s (map DDuplicateKey ds)) /\
               length ds = list_sum (map dup_count l)).
    { induction IHl as [|x l Hx _ IH]; intros s'.
      - exists []. rewrite add_errors_nil. split; reflexivity.
      - destruct (Hx s') as [d1 [E1 L1]].
        destruct (IH (add_errors s' (map DDuplicateKey d1))) as [d2 [E2 L2]].
        exists (d1 ++ d2). cbn [map list_sum].
        rewrite (bind_ok _ _ _ _ _ E1), (bind_ok _ _ _ _ _ E2).
        rewrite add_errors_app, map_app, length_app, list_sum_cons.
        split; [reflexivity | lia]. }
    destruct (G s) as [ds [E L]]. exists ds.
    simpl decode. rewrite (bind_ok _ _ _ _ _ E). split; [reflexivity | exact L].
  - assert (G : forall s, exists ds,
               (fix go (ps : list (string * raw)) : M (list (string * json)) :=
                  match ps with
                  | [] => ret []
                  | (k, x) :: xs => v <- decode x ;; kvs <- go xs ;; ret ((k, v) :: kvs)
                  end) ps s
               = (Ok (map (fun p => (fst p, to_json (snd p))) ps),
                  add_errors s (map DDuplicateKey ds)) /\
               length ds = list_sum (map (fun p => dup_count (snd p)) ps)).
    { induction IHps as [|[k x] ps Hx _ IH]; intros s'.
      - exists []. rewrite add_errors_nil. split; reflexivity.
      - destruct (Hx s') as [d1 [E1 L1]].
        destruct (IH (add_errors s' (map DDuplicateKey d1))) as [d2 [E2 L2]].
        exists (d1 ++ d2). cbn [map list_sum fst snd].
        rewrite (bind_ok _ _ _ _ _ E1), (bind_ok _ _ _ _ _ E2).
        rewrite add_errors_app, map_app, length_app, list_sum_cons.
        split; [reflexivity | simpl in L1 |- *; lia]. }
    destruct (G s) as [d1 [E1 L1]].
    destruct (error_on_duplicate_keys_spec (map (fun p => (fst p, to_json (snd p))) ps)
                (add_errors s (map DDuplicateKey d1))) as [d2 [E2 L2]].
    exists (d1 ++ d2). simpl decode. rewrite (bind_ok _ _ _ _ _ E1), E2.
    rewrite add_errors_app, map_app. split; [reflexivity|].
    rewrite length_app. rewrite dedup_first_map, !length_map in L2.
    cbn [dup_count]. lia.
Qed.

(** [check_keys] on a dict records one [is required] error per missing
    key, then raises [KeyError] if any was missing. *)
Lemma check_key_step_obj kvs json_name nf k s :
  check_key_step (JObj kvs) json_name nf k s =
    if key_in k kvs then (Ok nf, s)
    else (Ok true, add_errors s [DRequired k (truthy_name json_name)]).
Proof. unfold check_key_step, bind. simpl. destruct (key_in k kvs); reflexivity. Qed.

Lemma check_keys_obj kvs required_keys json_name s :
  check_keys (JObj kvs) required_keys json_name s =
    (if forallb (fun k => key_in k kvs) required_keys then Ok tt else Raise (KeyError None),
     add_errors s (map (fun k => DRequired k (truthy_name json_name))
                       (filter (fun k => negb (key_in k kvs)) required_keys))).
Proof.
  assert (G : forall keys nf s,
             fold_m keys nf (check_key_step (JObj kvs) json_name) s
             = (Ok (nf || negb (forallb (fun k => key_in k kvs) keys)),
                add_errors s (map (fun k => DRequired k (truthy_name json_name))
                                  (filter (fun k => negb (key_in k kvs)) keys)))).
  { induction keys as [|k keys IH]; intros nf s'.
    - simpl. rewrite orb_false_r, add_errors_nil. reflexivity.
    - simpl fold_m. generalize (check_key_step_obj kvs json_name nf k s'). intro Hs.
      rewrite (bind_ok _ _ _ _ _ Hs) || idtac.
      destruct (key_in k kvs) eqn:Hk; simpl filter; simpl forallb; rewrite ?Hk.
      + rewrite (bind_ok _ _ _ _ _ Hs), IH. reflexivity.
      + rewrite (bind_ok _ _ _ _ _ Hs), IH, add_errors_app.
        simpl. rewrite orb_true_r. reflexivity. }
  unfold check_keys. rewrite (bind_ok _ _ _ _ _ (G required_keys false s)).
  simpl. destruct (forallb (fun k => key_in k kvs) required_keys); reflexivity.
Qed.

Lemma key_in_remove_key {A} k k' (l : list (string * A)) :
  key_in k (remove_key k' l) = negb (String.eqb k' k) && key_in k l.
Proof.
  unfold remove_key, key_in. induction l as [|[k'' v] l IH]; simpl.
  - destruct (String.eqb k' k); reflexivity.
  - destruct (String.eqb k' k'') eqn:E1; simpl.
    + apply String.eqb_eq in E1. subst k''. rewrite IH, (String.eqb_sym k k').
      destruct (String.eqb k' k); reflexivity.
    + rewrite IH. destruct (String.eqb k k'') eqn:E2; simpl.
      * apply String.eqb_eq in E2. subst k''. rewrite E1. reflexivity.
      * reflexivity.
Qed.

Lemma key_in_dedup_first {A} k (l : list (string * A)) :
  key_in k (dedup_first l) = key_in k l.
Proof.
  induction l as [|[k' v] l IH]; [reflexivity|].
  simpl. unfold key_in at 1. simpl. fold (key_in k (remove_key k' (dedup_first l))).
  rewrite key_in_remove_key, IH. unfold key_in at 2. simpl.
  rewrite (String.eqb_sym k' k). destruct (String.eqb k k'); reflexivity.
Qed.

Lemma key_in_map_snd {A B} (g : A -> B) k (l : list (string * A)) :
  key_in k (map (fun p => (fst p, g (snd p))) l) = key_in k l.
Proof. unfold key_in. induction l as [|x l IH]; simpl; [reflexivity|]. rewrite IH. reflexivity. Qed.

(** C1 (amended).  A JSON file whose top-level object holds the required
    keys is loaded even when it contains duplicate keys: [load_data]
    returns the parsed dict (the first occurrence of each key kept, at
    every level) and records one [duplicate key] error for each second or
    later occurrence of a key in any object of the document. *)
Theorem load_data_keeps_duplicates (ps : list (string * raw))
    (required_keys : list string) (s : state)
    (Hkeys : forallb (fun k => key_in k ps) required_keys = true) :
  exists ds,
    load_data (FJson (RObj ps)) required_keys s =
      (Ok (to_json (RObj ps)), add_errors s (map DDuplicateKey ds)) /\
    length ds = dup_count (RObj ps) /\
    to_json (RObj ps) <> JNull.
Proof.
  destruct (decode_spec (RObj ps) s) as [ds [E L]].
  exists ds. unfold load_data. rewrite (bind_ok _ _ _ _ _ E).
  split; [|split; [exact L | discriminate]].
  simpl to_json. unfold catch_KeyError, try_except.
  set (kvs := dedup_first (map (fun p => (fst p, to_json (snd p))) ps)).
  assert (F : forallb (fun k => key_in k kvs) required_keys = true).
  { rewrite <- Hkeys. unfold kvs. clear Hkeys.
    induction required_keys as [|k keys IH]; [reflexivity|].
    simpl. rewrite key_in_dedup_first, key_in_map_snd, IH. reflexivity. }
  assert (N : filter (fun k => negb (key_in k kvs)) required_keys = []).
  { clear Hkeys. revert F.
    induction required_keys as [|k keys IH]; intros F; [reflexivity|].
    simpl in F |- *. apply andb_prop in F. destruct F as [F1 F2].
    rewrite F1. simpl. apply IH. exact F2. }
  pose proof (check_keys_obj kvs required_keys None (add_errors s (map DDuplicateKey ds))) as C.
  rewrite F, N, add_errors_nil in C.
  rewrite (bind_ok _ _ _ _ _ C). reflexivity.
Qed.

Lemma load_data_keeps_duplicates_witness :
  forallb (fun k => key_in k [("subtasks", RObj [("a", RInt 1); ("a", RInt 2)])]) ["subtasks"] = true /\
  exists ds,
    load_data (FJson (RObj [("subtasks", RObj [("a", RInt 1); ("a", RInt 2)])])) ["subtasks"]
      (mkState [] [] "subtasks.json") =
      (Ok (to_json (RObj [("subtasks", RObj [("a", RInt 1); ("a", RInt 2)])])),
       add_errors (mkState [] [] "subtasks.json") (map DDuplicateKey ds)) /\
    length ds = dup_count (RObj [("subtasks", RObj [("a", RInt 1); ("a", RInt 2)])]) /\
    to_json (RObj [("subtasks", RObj [("a", RInt 1); ("a", RInt 2)])]) <> JNull.
Proof.
  split; [reflexivity|].
  apply (load_data_keeps_duplicates [("subtasks", RObj [("a", RInt 1); ("a", RInt 2)])]
           ["subtasks"] (mkState [] [] "subtasks.json")).
  reflexivity.
Defined.

(** C1 (as stated) fails: a [subtasks.json] with a duplicated top-level
    key is not treated as failed to load; [load_data] records the
    duplicate and returns the dict with the first value. *)
Lemma load_data_duplicate_not_failed :
  let r := load_data (FJson (RObj [("subtasks", RObj []); ("subtasks", RInt 1)]))
             ["subtasks"] (mkState [] [] "subtasks.json") in
  fst r = Ok (JObj [("subtasks", JObj [])]) /\
  fst r <> Ok JNull /\
  errors (snd r) = [("subtasks.json", DDuplicateKey "subtasks")].
Proof. vm_compute. split; [reflexivity | split; [discriminate | reflexivity]]. Qed.

(** ** Concrete runs *)

(** A repository with the given [problem.json], [subtasks.json] and
    [solutions.json], no statement, [WEB_TERMINAL=true], empty
    [validator/] and [solution/] directories and every other file present. *)
Definition repo (p st so : file_content) : env :=
  mkEnv p st so SMissing None (Some "true") None None (Some "p")
        (Some []) (Some []) (fun _ => true).

Definition state0 : state := mkState [] [] "".

Definition problem_raw (time_limit memory_limit : raw) : raw :=
  RObj [("name", RStr "p"); ("title", RStr "P"); ("type", RStr "Batch");
        ("time_limit", time_limit); ("memory_limit", memory_limit)].

(** C2 fails: with [problem.json] missing, [verify_problem] returns
    [None], and [verify_subtasks] then reads [problem['type']] on [None]:
    the [TypeError] is not caught and [verify] stops there. *)
Theorem verify_subtasks_crashes_without_problem :
  forall render_tail set_elements,
  fst (verify render_tail set_elements
         (repo FMissing
               (FJson (RObj [("subtasks", RObj []); ("global_validators", RList [])]))
               (FJson (RObj [])))
         state0) = Raise TypeError.
Proof. intros rt se. vm_compute. reflexivity. Qed.

(** C8 fails: an integer [time_limit] of 1 (at least 0.5) is rejected,
    since the code accepts only Python floats; and a [NaN] time limit
    (which [json.load] reads from the literal [NaN]) is accepted, since
    [NaN < 0.5] is false. *)
Theorem time_limit_integer_rejected :
  (errors (snd (verify_problem
                  (repo (FJson (problem_raw (RInt 1) (RInt 256))) FMissing FMissing)
                  (mkState [] [] "problem.json")))
   = [("problem.json", DTimeLimit)]) /\
  (errors (snd (verify_problem
                  (repo (FJson (problem_raw (RFloat FNaN) (RInt 256))) FMissing FMissing)
                  (mkState [] [] "problem.json")))
   = []).
Proof. vm_compute. split; reflexivity. Qed.

(** [m & (m - 1) == 0] holds for [m >= 1] exactly when [m] is a power
    of two. *)
Lemma pow2_land (m : Z) :
  (1 <= m)%Z -> (Z.land m (m - 1) = 0 <-> exists k, 0 <= k /\ m = 2 ^ k)%Z.
Proof.
  intros Hm. split.
  - intros H. exists (Z.log2 m). split; [apply Z.log2_nonneg|].
    destruct (Z.log2_spec m ltac:(lia)) as [L U].
    destruct (Z.eq_dec m (2 ^ Z.log2 m)) as [E|NE]; [exact E|exfalso].
    assert (Lm1 : Z.log2 (m - 1) = Z.log2 m).
    { apply Z.log2_unique; [apply Z.log2_nonneg|].
      rewrite Z.pow_succ_r in U by apply Z.log2_nonneg.
      rewrite Z.pow_succ_r by apply Z.log2_nonneg. lia. }
    assert (B1 : Z.testbit m (Z.log2 m) = true) by (apply Z.bit_log2; lia).
    assert (B2 : Z.testbit (m - 1) (Z.log2 m) = true).
    { rewrite <- Lm1. apply Z.bit_log2.
      assert (0 < 2 ^ Z.log2 m)%Z by (apply Z.pow_pos_nonneg; [lia|apply Z.log2_nonneg]).
      lia. }
    assert (B : Z.testbit (Z.land m (m - 1)) (Z.log2 m) = true)
      by (rewrite Z.land_spec, B1, B2; reflexivity).
    rewrite H, Z.testbit_0_l in B. discriminate.
  - intros [k [Hk E]]. subst m.
    replace (2 ^ k - 1)%Z with (Z.ones k) by (rewrite Z.ones_equiv; lia).
    rewrite Z.land_ones by exact Hk. apply Z_mod_same_full.
Qed.

(** The memory-limit test on an integer: no error exactly for the powers
    of two (which are all at least 1), one [memory_limit] error otherwise. *)
Theorem check_memory_limit_int (m : Z) (s : state) :
  (check_memory_limit (JInt m) s = (Ok tt, s) /\ (exists k, 0 <= k /\ m = 2 ^ k)%Z) \/
  (check_memory_limit (JInt m) s = (Ok tt, add_errors s [DMemoryLimit]) /\
   ~ (exists k, 0 <= k /\ m = 2 ^ k)%Z).
Proof.
  unfold check_memory_limit. cbn [py_int_value].
  destruct (Z.ltb m 1) eqn:Hlt; cbn [orb negb].
  - apply Z.ltb_lt in Hlt. right. split; [apply error_add|].
    intros [k [Hk E]]. assert (0 < 2 ^ k)%Z by (apply Z.pow_pos_nonneg; lia). lia.
  - apply Z.ltb_ge in Hlt.
    destruct (Z.eqb (Z.land m (m - 1)) 0) eqn:Z0; cbn [negb].
    + left. split; [reflexivity|]. apply (pow2_land m Hlt). apply Z.eqb_eq. exact Z0.
    + right. split; [apply error_add|].
      intros P. apply (pow2_land m Hlt) in P. rewrite P in Z0. discriminate.
Qed.

(** C9 fails: [memory_limit: true] passes the check (a Python [bool] is
    an [int] equal to 1 = 2^0), although it is not an integer. *)
Theorem memory_limit_bool_accepted :
  errors (snd (verify_problem
                 (repo (FJson (problem_raw (RFloat (FFin 1)) (RBool true))) FMissing FMissing)
                 (mkState [] [] "problem.json")))
  = [].
Proof. vm_compute. reflexivity. Qed.

Lemma lookup_key_in {A} k (kvs : list (string * A)) v :
  lookup k kvs = Some v -> key_in k kvs = true.
Proof.
  induction kvs as [|[k' v'] t IH]; simpl; [discriminate|].
  unfold key_in. simpl. destruct (String.eqb k k'); [reflexivity|]. exact IH.
Qed.

(** The test of [verify_verdict] on a value. *)
Definition valid_verdict (v : json) : bool :=
  match v with
  | JStr x => existsb (String.eqb x) valid_verdicts
  | _ => false
  end.

Lemma verify_verdict_eq v key_name s :
  verify_verdict v key_name s =
    if valid_verdict v then (Ok true, s) else (Ok false, add_errors s [DVerdict key_name]).
Proof.
  destruct v; cbn [verify_verdict valid_verdict];
    try (unfold bind; rewrite error_add; reflexivity).
  destruct (existsb (String.eqb s0) valid_verdicts); [reflexivity|].
  unfold bind. rewrite error_add. reflexivity.
Qed.

(** C6 (amended).  A represented solution whose [verdict] is not one of
    the valid verdicts gets one verdict error and is not taken as a model
    solution; its [except] mapping is then checked all the same, exactly
    as for an entry with a valid verdict. *)
Theorem solution_step_invalid_verdict (solutions subtasks : json) (a : solution_acc)
    (sname : string) (kvs : list (string * json)) (v : json) (s : state)
    (Hfile : existsb (String.eqb sname) (acc_files a) = true)
    (Hdata : py_getitem solutions sname = Ok (JObj kvs))
    (Hv : lookup "verdict" kvs = Some v)
    (Hinvalid : valid_verdict v = false) :
  solution_step solutions subtasks a (JStr sname) s =
    (check_except subtasks sname (JObj kvs) ;;;
     ret (mkSolAcc (acc_model a) (remove_str (acc_files a) sname)))
      (add_errors s [DVerdict sname]).
Proof.
  pose proof (check_keys_obj kvs ["verdict"] (Some sname) s) as C.
  simpl forallb in C. simpl filter in C. rewrite (lookup_key_in _ _ _ Hv) in C.
  simpl in C. rewrite add_errors_nil in C.
  unfold solution_step.
  erewrite bind_ok by (cbn [lift in_solution_files]; rewrite Hfile; reflexivity).
  cbn [negb].
  erewrite bind_ok by (unfold lift; rewrite Hdata; reflexivity).
  erewrite bind_ok
    by (unfold catch_KeyError, try_except; rewrite (bind_ok _ _ _ _ _ C); reflexivity).
  cbn [negb].
  erewrite bind_ok by (unfold lift; simpl py_getitem; rewrite Hv; reflexivity).
  erewrite bind_ok by (rewrite verify_verdict_eq, Hinvalid; reflexivity).
  cbn [andb].
  erewrite bind_ok by reflexivity.
  reflexivity.
Qed.

Lemma solution_step_invalid_verdict_witness :
  ((existsb (String.eqb "a.cpp") ["a.cpp"] = true) /\
   (py_getitem (JObj [("a.cpp", JObj [("verdict", JStr "bogus")])]) "a.cpp"
     = Ok (JObj [("verdict", JStr "bogus")])) /\
   (lookup "verdict" [("verdict", JStr "bogus")] = Some (JStr "bogus")) /\
   (valid_verdict (JStr "bogus") = false)) /\
  solution_step (JObj [("a.cpp", JObj [("verdict", JStr "bogus")])]) (JObj [])
    (mkSolAcc None ["a.cpp"]) (JStr "a.cpp") state0 =
    (check_except (JObj []) "a.cpp" (JObj [("verdict", JStr "bogus")]) ;;;
     ret (mkSolAcc None (remove_str ["a.cpp"] "a.cpp")))
      (add_errors state0 [DVerdict "a.cpp"]).
Proof.
  split; [repeat split; reflexivity|].
  apply (solution_step_invalid_verdict
           (JObj [("a.cpp", JObj [("verdict", JStr "bogus")])]) (JObj [])
           (mkSolAcc None ["a.cpp"]) "a.cpp" [("verdict", JStr "bogus")] (JStr "bogus") state0);
    reflexivity.
Defined.

(** C6 (as stated) fails: an entry with the invalid verdict [bogus] and
    an [except] naming an undefined subtask gets both the verdict error and
    the undefined-subtask error. *)
Lemma invalid_verdict_except_still_checked :
  errors (snd (verify_solutions (fun l => l)
     (mkEnv FMissing FMissing
        (FJson (RObj [("a.cpp", RObj [("verdict", RStr "bogus");
                                      ("except", RObj [("nosuch", RStr "correct")])])]))
        SMissing None (Some "true") None None (Some "p") (Some []) (Some ["a.cpp"])
        (fun _ => true))
     (JObj []) (mkState [] [] "solutions.json")))
  = [("solutions.json", DVerdict "a.cpp");
     ("solutions.json", DSubtaskNotDefined "nosuch");
     ("solutions.json", DNoModel)].
Proof. vm_compute. reflexivity. Qed.

(** C5 fails: a represented solution whose entry is not a dict (here the
    number 5) makes [check_keys] evaluate ['verdict' in 5], a [TypeError]
    that nothing catches; [verify_solutions] stops before it records that
    there is no model solution. *)
Theorem non_dict_solution_crashes :
  let r := verify_solutions (fun l => l)
     (mkEnv FMissing FMissing (FJson (RObj [("a.cpp", RInt 5)]))
        SMissing None (Some "true") None None (Some "p") (Some []) (Some ["a.cpp"])
        (fun _ => true))
     (JObj []) (mkState [] [] "solutions.json") in
  fst r = Raise TypeError /\ errors (snd r) = [].
Proof. vm_compute. split; reflexivity. Qed.
(** ** Scores and indexes of [subtasks.json] (C3, C4, C10) *)

(** The [index] and [score] of a subtask entry that the loop over
    [subtasks.items()] counts: a dict holding both keys. *)
Definition counted_entry (item : string * json) : option (json * json) :=
  match snd item with
  | JObj d =>
      match lookup "index" d, lookup "score" d with
      | Some i, Some sc => Some (i, sc)
      | _, _ => None
      end
  | _ => None
  end.

(** What a counted [score] adds to [score_sum]: a Python [int] (a [bool]
    counts as 0 or 1) that is not negative, for a subtask other than
    [samples]. *)
Definition score_contribution (name : string) (sc : json) : Z :=
  match py_int_value sc with
  | Some z => if (z <? 0)%Z then 0 else if String.eqb name "samples" then 0 else z
  | None => 0
  end.

Definition entry_score (item : string * json) : Z :=
  match counted_entry item with
  | Some (_, sc) => score_contribution (fst item) sc
  | None => 0
  end.

Definition entry_index (item : string * json) : list json :=
  match counted_entry item with
  | Some (i, _) => [i]
  | None => []
  end.

(** Splits a successful [bind]. *)
Ltac binv H :=
  let x := fresh "x" in let s1 := fresh "s" in let Hm := fresh "Hm" in
  apply bind_ok_inv in H; destruct H as (x & s1 & Hm & H).

Lemma lookup_some_iff {A} k (d : list (string * A)) :
  key_in k d = true <-> exists v, lookup k d = Some v.
Proof.
  split.
  - induction d as [|[k' v'] t IH]; unfold key_in; simpl; [discriminate|].
    destruct (String.eqb k k'); simpl; [eauto|]. exact IH.
  - intros [v Hv]. exact (lookup_key_in _ _ _ Hv).
Qed.

Lemma lookup_none_key_in {A} k (d : list (string * A)) :
  lookup k d = None -> key_in k d = false.
Proof.
  intros H. destruct (key_in k d) eqn:E; [|reflexivity].
  apply lookup_some_iff in E. destruct E as [v Hv]. congruence.
Qed.

Lemma catch_check_keys_obj d ks n s :
  catch_KeyError (check_keys (JObj d) ks n ;;; ret true) (ret false) s =
    (Ok (forallb (fun k => key_in k d) ks),
     add_errors s (map (fun k => DRequired k (truthy_name n))
                       (filter (fun k => negb (key_in k d)) ks))).
Proof.
  unfold catch_KeyError, try_except, bind. rewrite check_keys_obj.
  destruct (forallb (fun k => key_in k d) ks); reflexivity.
Qed.

Lemma subtask_step_ok vf acc item s a s' :
  subtask_step vf acc item s = (Ok a, s') ->
  acc_score_sum a = (acc_score_sum acc + entry_score item)%Z /\
  acc_indexes a = acc_indexes acc ++ entry_index item.
Proof.
  destruct item as [name data]. unfold entry_score, entry_index, counted_entry. cbn [snd fst].
  unfold subtask_step. intros H.
  destruct data as [| | | | | |d];
    try (cbv [bind error ret] in H; injection H as <- _; rewrite Z.add_0_r, app_nil_r; auto).
  rewrite (bind_ok _ _ _ _ _ (catch_check_keys_obj _ _ _ _)) in H.
  cbn [forallb] in H. rewrite andb_true_r in H.
  destruct (lookup "index" d) as [i|] eqn:Ei;
    [|rewrite (lookup_none_key_in _ _ Ei) in H; cbv [negb ret] in H; injection H as <- _;
      rewrite Z.add_0_r, app_nil_r; auto].
  rewrite (lookup_key_in _ _ _ Ei) in H.
  destruct (lookup "score" d) as [sc|] eqn:Es;
    [|rewrite (lookup_none_key_in _ _ Es) in H; cbv [negb ret andb] in H; injection H as <- _;
      rewrite Z.add_0_r, app_nil_r; auto].
  rewrite (lookup_key_in _ _ _ Es) in H. cbn [andb negb] in H.
  binv H. unfold lift in Hm. simpl py_getitem in Hm. rewrite Ei in Hm. injection Hm as <- <-.
  binv H. unfold lift in Hm. injection Hm as Hset <-.
  binv H. unfold lift in Hm. simpl py_getitem in Hm. rewrite Es in Hm. injection Hm as <- <-.
  binv H. binv H. cbv [ret] in H. injection H as <- _. cbn [acc_score_sum acc_indexes].
  split.
  - unfold score_contribution. destruct (py_int_value sc) as [z|].
    + destruct (z <? 0)%Z.
      * cbv [bind error ret] in Hm. injection Hm as <- _. lia.
      * destruct (String.eqb name "samples").
        -- cbv [bind error ret] in Hm. destruct (z =? 0)%Z; injection Hm as <- _; lia.
        -- cbv [ret] in Hm. injection Hm as <- _. reflexivity.
    + cbv [bind error ret] in Hm. injection Hm as <- _. lia.
  - destruct i; simpl in Hset; congruence.
Qed.

(** The sum of the counted scores, and the counted indexes in order. *)
Definition counted_score_sum (kvs : list (string * json)) : Z :=
  fold_right Z.add 0%Z (map entry_score kvs).

Definition counted_indexes (kvs : list (string * json)) : list json :=
  flat_map entry_index kvs.

Lemma fold_subtask_ok vf kvs acc s a s' :
  fold_m kvs acc (subtask_step vf) s = (Ok a, s') ->
  acc_score_sum a = (acc_score_sum acc + counted_score_sum kvs)%Z /\
  acc_indexes a = acc_indexes acc ++ counted_indexes kvs.
Proof.
  revert acc s. induction kvs as [|item kvs IH]; intros acc s H.
  - cbv [fold_m ret] in H. injection H as <- _. simpl. rewrite Z.add_0_r, app_nil_r. auto.
  - cbn [fold_m] in H. binv H. apply subtask_step_ok in Hm. destruct Hm as [E1 E2].
    destruct (IH _ _ H) as [F1 F2]. unfold counted_score_sum, counted_indexes in *. simpl.
    rewrite F1, F2, E1, E2, app_assoc. split; [lia|reflexivity].
Qed.

(** The missing-index errors for [n] subtasks and the given indexes. *)
Definition missing_indexes (has_samples : bool) (n : nat) (indexes : list json) : list diag :=
  map DMissingIndex
    (filter (fun i => negb (existsb (py_eq_int (i + if has_samples then 0 else 1)%Z) indexes))
            (map Z.of_nat (seq 0 n))).

Lemma check_indexes_eq hs n indexes s :
  check_indexes hs n indexes s = (Ok tt, add_errors s (missing_indexes hs n indexes)).
Proof.
  unfold check_indexes, missing_indexes, for_each.
  generalize (map Z.of_nat (seq 0 n)) as l. intros l. revert s.
  induction l as [|i l IH]; intros s.
  - simpl. rewrite add_errors_nil. reflexivity.
  - cbn [fold_m]. destruct (existsb (py_eq_int (i + if hs then 0 else 1)%Z) indexes) eqn:E.
    + rewrite (bind_ok _ _ _ _ _ (eq_refl : ret tt s = (Ok tt, s))), IH.
      simpl filter. rewrite E. reflexivity.
    + rewrite (bind_ok _ _ _ _ _ (error_add s _)), IH, add_errors_app.
      simpl filter. rewrite E. reflexivity.
Qed.

(** The errors recorded after the loop over the subtasks. *)
Definition tail_diag (d : diag) : bool :=
  match d with
  | DScoreSum _ | DMissingIndex _ => true
  | _ => false
  end.

Definition not_tail (d : diag) : Prop := tail_diag d = false.

(** From [s] to [s']: same namespace, errors only appended, each
    satisfying [P]. *)
Definition grows (P : diag -> Prop) (s s' : state) : Prop :=
  namespace s' = namespace s /\
  exists n, errors s' = errors s ++ n /\ Forall (fun p => P (snd p)) n.

Lemma grows_refl P s : grows P s s.
Proof. split; [reflexivity|]. exists []. rewrite app_nil_r. auto. Qed.

Lemma grows_trans P s1 s2 s3 : grows P s1 s2 -> grows P s2 s3 -> grows P s1 s3.
Proof.
  intros [N1 [n1 [E1 F1]]] [N2 [n2 [E2 F2]]]. split; [congruence|].
  exists (n1 ++ n2). rewrite E2, E1, app_assoc. split; [reflexivity|]. apply Forall_app; auto.
Qed.

Lemma adds_grows {A} P (m : M A) s r s' : adds_only P m -> m s = (r, s') -> grows P s s'.
Proof. intros H Hm. exact (H _ _ _ Hm). Qed.

Lemma adds_check_keys P d ks n :
  (forall k, P (DRequired k (truthy_name n))) -> adds_only P (check_keys d ks n).
Proof. intros HP. unfold check_keys, check_key_step. adds_tac; auto. Qed.

Lemma adds_load_data f ks : adds_only not_tail (load_data f ks).
Proof.
  unfold load_data. destruct f as [| |r]; [adds_tac; reflexivity .. |].
  apply adds_bind.
  - intros s r' s' H. destruct (decode_spec r s) as [ds [E _]]. rewrite E in H.
    injection H as _ <-. split; [reflexivity|]. exists (map (pair (namespace s)) (map DDuplicateKey ds)).
    split; [reflexivity|]. apply Forall_forall. intros x Hx.
    apply in_map_iff in Hx. destruct Hx as [d [<- Hd]]. apply in_map_iff in Hd.
    destruct Hd as [k [<- _]]. reflexivity.
  - intros a. apply adds_catch; [apply adds_bind; [apply adds_check_keys; reflexivity|intros; apply adds_ret]|apply adds_ret].
Qed.

Lemma adds_check_validator_key vf used parent key name parName :
  adds_only not_tail (check_validator_key vf used parent key name parName).
Proof. unfold check_validator_key. adds_tac; reflexivity. Qed.

Lemma adds_check_placeholders rt d : adds_only not_tail (check_placeholders rt d).
Proof. unfold check_placeholders, check_subtask_sensitive_validator. adds_tac; reflexivity. Qed.

Lemma adds_has_samples_check problem subtasks :
  adds_only not_tail (has_samples_check problem subtasks).
Proof.
  unfold has_samples_check. adds_tac; try reflexivity.
  apply adds_check_keys. reflexivity.
Qed.

Lemma adds_subtask_step vf a item : adds_only not_tail (subtask_step vf a item).
Proof.
  unfold subtask_step. adds_tac; try reflexivity;
    try (apply adds_check_keys; reflexivity); try apply adds_check_validator_key.
Qed.

Ltac binv_as H x s1 Hm := apply bind_ok_inv in H; destruct H as (x & s1 & Hm & H).

Lemma adds_warnings_only {A} (l : list A) g s r s' :
  for_each l (fun x => warning (g x)) s = (r, s') ->
  errors s' = errors s /\ namespace s' = namespace s.
Proof.
  intros H. assert (Ha : adds_only (fun _ => False) (for_each l (fun x => warning (g x))))
    by (adds_tac).
  destruct (Ha _ _ _ H) as [N [n [E F]]]. destruct n as [|p n].
  - rewrite app_nil_r in E. auto.
  - inversion F. contradiction.
Qed.

(** A run of [verify_subtasks] that returns a value other than [None]
    went through the whole function. *)
Lemma verify_subtasks_run rt se e problem s v s' :
  verify_subtasks rt se e problem s = (Ok v, s') -> v <> JNull ->
  exists kvs vf used hs a s1 s2 s3,
    v = JObj kvs /\
    grows not_tail s s1 /\
    has_samples_check problem (JObj kvs) s1 = (Ok hs, s2) /\
    fold_m kvs (mkAcc [] 0 used) (subtask_step vf) s2 = (Ok a, s3) /\
    errors s' = errors s3 ++
      map (pair (namespace s))
        ((if (acc_score_sum a =? 100)%Z then [] else [DScoreSum (acc_score_sum a)]) ++
         missing_indexes hs (length kvs) (acc_indexes a)).
Proof.
  intros H Hv. unfold verify_subtasks in H.
  binv_as H sd s0 Hload. pose proof (adds_grows _ _ _ _ _ (adds_load_data _ _) Hload) as G0.
  destruct sd; [cbv [ret] in H; injection H as <- _; contradiction| ..].
  all: binv_as H gp sA HgpM; injection HgpM as _ <-.
  all: binv_as H nei sB HneiM.
  all: assert (sB = s0) as -> by
         (destruct gp; [cbv [ret] in HneiM; injection HneiM as _ <-; reflexivity
                       | binv_as HneiM sp sX Hsp; injection Hsp as _ <-;
                         cbv [ret] in HneiM; injection HneiM as _ <-; reflexivity]).
  all: destruct nei; [cbv [bind error ret] in H; injection H as <- _; contradiction|].
  all: binv_as H files sC HfM; injection HfM as _ <-; cbv zeta in H.
  all: binv_as H used1 sD Hu1; pose proof (adds_grows _ _ _ _ _ (adds_check_validator_key _ _ _ _ _ _) Hu1) as G1.
  all: binv_as H used2 sE Hu2; pose proof (adds_grows _ _ _ _ _ (adds_check_validator_key _ _ _ _ _ _) Hu2) as G2.
  all: binv_as H u sF Hph; pose proof (adds_grows _ _ _ _ _ (adds_check_placeholders _ _) Hph) as G3.
  all: binv_as H subtasks sG Hsub; injection Hsub as _ <-.
  all: binv_as H hs sH Hhs; pose proof (adds_grows _ _ _ _ _ (adds_has_samples_check _ _) Hhs) as G4.
  all: binv_as H items sI Hitems; injection Hitems as Hitems <-.
  all: assert (subtasks = JObj items) as -> by (destruct subtasks; cbn in Hitems; congruence).
  all: binv_as H a sJ Hfold; pose proof (adds_grows _ _ _ _ _ (adds_fold _ _ (adds_subtask_step _) _ _) Hfold) as G5.
  all: binv_as H u2 sK Hwarn; apply adds_warnings_only in Hwarn; destruct Hwarn as [EK NK].
  all: binv_as H u3 sL Hscore.
  all: binv_as H u4 sM Hidx; rewrite check_indexes_eq in Hidx; injection Hidx as _ <-.
  all: cbv [ret] in H; injection H as <- <-.
  all: exists items, (filter (fun f => negb (String.eqb f "testlib.h" || String.eqb f "Makefile")) files), used2, hs, a, sF, sH, sJ.
  all: split; [reflexivity|].
  all: split; [eapply grows_trans; [exact G0|]; eapply grows_trans; [exact G1|];
               eapply grows_trans; [exact G2|]; exact G3|].
  all: split; [exact Hhs|]; split; [exact Hfold|].
  all: assert (NS : namespace sK = namespace s)
         by (destruct G0 as [N0 _], G1 as [N1 _], G2 as [N2 _], G3 as [N3 _],
                      G4 as [N4 _], G5 as [N5 _]; congruence).
  all: assert (NL : namespace sL = namespace s /\ errors sL = errors sJ ++ map (pair (namespace s))
                 (if (acc_score_sum a =? 100)%Z then [] else [DScoreSum (acc_score_sum a)])).
  all: try (destruct (Z.eqb (acc_score_sum a) 100);
            [cbv [ret] in Hscore; injection Hscore as _ <-
            |rewrite error_add in Hscore; injection Hscore as _ <-];
            (split; [exact NS|cbn [errors add_errors]; rewrite ?app_nil_r, EK, ?NS; reflexivity])).
  all: destruct NL as [NL1 NL2]; unfold add_errors; cbn [errors namespace];
       rewrite NL2, NL1, map_app, app_assoc; reflexivity.
Qed.

(** Whether [verify_subtasks] finds a [samples] subtask. *)
(** [hasSamples] as [verify_subtasks] computes it. *)
Definition has_samples (problem : json) (kvs : list (string * json)) : bool :=
  match problem with
  | JObj p =>
      match lookup "type" p with
      | Some t => negb (json_is_str t "OutputOnly") && key_in "samples" kvs
      | None => false
      end
  | _ => false
  end.

Lemma has_samples_check_ok problem kvs s hs s' :
  has_samples_check problem (JObj kvs) s = (Ok hs, s') -> hs = has_samples problem kvs.
Proof.
  unfold has_samples_check, catch_KeyError, try_except, has_samples.
  destruct problem as [| | | | | |p]; try (cbv [bind lift py_getitem]; discriminate).
  unfold bind at 1. cbn [lift py_getitem].
  destruct (lookup "type" p) as [t|]; [|cbv [ret]; congruence].
  destruct (json_is_str t "OutputOnly"); [cbv [ret]; simpl; congruence|].
  unfold bind. rewrite check_keys_obj. cbn [forallb]. rewrite andb_true_r.
  destruct (key_in "samples" kvs); cbv [ret raise]; simpl; congruence.
Qed.

Lemma has_samples_check_required p t kvs s :
  lookup "type" p = Some t -> json_is_str t "OutputOnly" = false ->
  key_in "samples" kvs = false ->
  has_samples_check (JObj p) (JObj kvs) s = (Ok false, add_errors s [DRequired "samples" None]).
Proof.
  intros Ht Hn Hs. unfold has_samples_check, catch_KeyError, try_except.
  unfold bind at 1. cbn [lift py_getitem]. rewrite Ht, Hn.
  unfold bind. rewrite check_keys_obj. cbn [forallb filter]. rewrite Hs. reflexivity.
Qed.

Lemma verify_subtasks_errors rt se e problem s kvs s' :
  verify_subtasks rt se e problem s = (Ok (JObj kvs), s') ->
  exists n,
    errors s' = errors s ++ n ++
      map (pair (namespace s))
        ((if (counted_score_sum kvs =? 100)%Z then [] else [DScoreSum (counted_score_sum kvs)]) ++
         missing_indexes (has_samples problem kvs) (length kvs) (counted_indexes kvs)) /\
    Forall (fun p => not_tail (snd p)) n.
Proof.
  intros H. destruct (verify_subtasks_run _ _ _ _ _ _ _ H ltac:(discriminate))
    as (kvs' & vf & used & hs & a & s1 & s2 & s3 & Ev & G1 & Hhs & Hfold & E).
  injection Ev as <-.
  pose proof (adds_grows _ _ _ _ _ (adds_has_samples_check _ _) Hhs) as G2.
  pose proof (adds_grows _ _ _ _ _ (adds_fold _ _ (adds_subtask_step _) _ _) Hfold) as G3.
  destruct (grows_trans _ _ _ _ (grows_trans _ _ _ _ G1 G2) G3) as [_ [n [En Fn]]].
  apply has_samples_check_ok in Hhs. subst hs.
  destruct (fold_subtask_ok _ _ _ _ _ _ Hfold) as [Sa Ia]. cbn [acc_score_sum acc_indexes] in Sa, Ia.
  exists n. split; [|exact Fn]. rewrite E, En, <- app_assoc, Sa, Ia. reflexivity.
Qed.

(** Error kinds. *)
Definition is_score_sum (d : diag) : bool :=
  match d with DScoreSum _ => true | _ => false end.

Definition is_missing_index (d : diag) : bool :=
  match d with DMissingIndex _ => true | _ => false end.

Lemma filter_not_tail (f : diag -> bool) (n : list (string * diag)) :
  (forall d, f d = true -> tail_diag d = true) ->
  Forall (fun p => not_tail (snd p)) n -> filter f (map snd n) = [].
Proof.
  intros Hf F. induction F as [|[ns d] n Hd F IH]; [reflexivity|].
  simpl. destruct (f d) eqn:E; [|exact IH].
  apply Hf in E. unfold not_tail in Hd. simpl in Hd. congruence.
Qed.

Lemma map_snd_pair {A B} (a : A) (l : list B) : map snd (map (pair a) l) = l.
Proof. induction l; simpl; congruence. Qed.

Lemma filter_score_missing hs n idx :
  filter is_score_sum (missing_indexes hs n idx) = [].
Proof.
  unfold missing_indexes. induction (filter _ (map Z.of_nat (seq 0 n))) as [|i l IH];
    simpl; congruence.
Qed.

Lemma filter_missing_missing hs n idx :
  filter is_missing_index (missing_indexes hs n idx) = missing_indexes hs n idx.
Proof.
  unfold missing_indexes. induction (filter _ (map Z.of_nat (seq 0 n))) as [|i l IH];
    simpl; congruence.
Qed.

(** C3 (amended).  When [verify_subtasks] runs to its end and returns the
    [subtasks] dict (so [subtasks.json] loaded, has a validator key and
    nothing raised), the new errors hold exactly one [sum of scores is S]
    error if [S <> 100] and none if [S = 100], where [S] is the sum of the
    non-negative integer scores of the entries that are dicts with both
    [index] and [score], the [samples] entry left out. *)
Theorem score_sum_error_iff rt se e problem s kvs s'
    (Hrun : verify_subtasks rt se e problem s = (Ok (JObj kvs), s')) :
  exists new,
    errors s' = errors s ++ new /\
    filter is_score_sum (map snd new) =
      (if (counted_score_sum kvs =? 100)%Z then [] else [DScoreSum (counted_score_sum kvs)]).
Proof.
  destruct (verify_subtasks_errors _ _ _ _ _ _ _ Hrun) as [n [E F]].
  eexists. split; [exact E|].
  rewrite map_app, filter_app, map_snd_pair, filter_app, filter_score_missing.
  rewrite (filter_not_tail is_score_sum n ltac:(intros []; simpl; congruence) F).
  destruct (counted_score_sum kvs =? 100)%Z; reflexivity.
Qed.

(** When [verify_subtasks] runs to its end and returns the [subtasks]
    dict of [n] entries, its missing-index errors are, in order, one
    [missing index i] for each [i] in [0 .. n-1] such that [i + off] is not
    equal to any counted index, where [off] is 0 when [hasSamples] holds
    (the problem type is not [OutputOnly] and [samples] is a key) and 1
    otherwise.  The message names the loop counter [i], not the index
    [i + off] that was looked for. *)
Theorem missing_index_errors rt se e problem s kvs s'
    (Hrun : verify_subtasks rt se e problem s = (Ok (JObj kvs), s')) :
  exists new,
    errors s' = errors s ++ new /\
    filter is_missing_index (map snd new) =
      missing_indexes (has_samples problem kvs) (length kvs) (counted_indexes kvs).
Proof.
  destruct (verify_subtasks_errors _ _ _ _ _ _ _ Hrun) as [n [E F]].
  eexists. split; [exact E|].
  rewrite map_app, filter_app, map_snd_pair, filter_app, filter_missing_missing.
  rewrite (filter_not_tail is_missing_index n ltac:(intros []; simpl; congruence) F).
  destruct (counted_score_sum kvs =? 100)%Z; reflexivity.
Qed.

(** C10 (amended).  When [verify_subtasks] runs to its end and returns the
    [subtasks] dict, the problem's [type] is not the string [OutputOnly]
    and the dict has no [samples] key, the error [samples is required] is
    among the new errors. *)
Theorem samples_required rt se e p t s kvs s'
    (Hrun : verify_subtasks rt se e (JObj p) s = (Ok (JObj kvs), s'))
    (Htype : lookup "type" p = Some t)
    (Hnot : json_is_str t "OutputOnly" = false)
    (Hno : key_in "samples" kvs = false) :
  exists pre post,
    errors s' = errors s ++ pre ++ [(namespace s, DRequired "samples" None)] ++ post.
Proof.
  destruct (verify_subtasks_run _ _ _ _ _ _ _ Hrun ltac:(discriminate))
    as (kvs' & vf & used & hs & a & s1 & s2 & s3 & Ev & G1 & Hhs & Hfold & E).
  injection Ev as <-.
  rewrite (has_samples_check_required _ _ _ _ Htype Hnot Hno) in Hhs.
  injection Hhs as _ <-.
  pose proof (adds_grows _ _ _ _ _ (adds_fold _ _ (adds_subtask_step _) _ _) Hfold) as [N3 [n3 [E3 _]]].
  destruct G1 as [N1 [n1 [E1 _]]].
  exists n1. eexists. rewrite E, E3. cbn [errors add_errors]. rewrite E1, N1.
  rewrite <- !app_assoc. reflexivity.
Qed.

(** ** Concrete runs of [verify_subtasks] *)

(** [str.format] fields in these runs carry no attribute, conversion or
    spec, and sets are enumerated in insertion order. *)
Definition plain_tail : string -> string -> option ascii -> string -> outcome string :=
  fun _ _ _ _ => Ok "".

Definition insertion_order : list string -> list string := fun l => l.

Definition batch_problem : json := JObj [("type", JStr "Batch")].

Definition subtask_raw (index score : Z) : raw :=
  RObj [("index", RInt index); ("score", RInt score)].

(** Two subtasks scoring 60 and 30, with an empty [global_validators]. *)
Definition scenario_b : env :=
  repo FMissing
       (FJson (RObj [("subtasks", RObj [("a", subtask_raw 1 60); ("b", subtask_raw 2 30)]);
                     ("global_validators", RList [])]))
       FMissing.

Definition scenario_b_subtasks : list (string * json) :=
  [("a", JObj [("index", JInt 1); ("score", JInt 60)]);
   ("b", JObj [("index", JInt 2); ("score", JInt 30)])].

Definition subtasks_state : state := mkState [] [] "subtasks.json".

Lemma score_sum_error_iff_witness :
  verify_subtasks plain_tail insertion_order scenario_b batch_problem subtasks_state
    = (Ok (JObj scenario_b_subtasks),
       snd (verify_subtasks plain_tail insertion_order scenario_b batch_problem subtasks_state)) /\
  exists new,
    errors (snd (verify_subtasks plain_tail insertion_order scenario_b batch_problem subtasks_state))
      = errors subtasks_state ++ new /\
    filter is_score_sum (map snd new) =
      (if (counted_score_sum scenario_b_subtasks =? 100)%Z then []
       else [DScoreSum (counted_score_sum scenario_b_subtasks)]).
Proof.
  split; [vm_compute; reflexivity|].
  apply (score_sum_error_iff plain_tail insertion_order scenario_b batch_problem subtasks_state).
  vm_compute. reflexivity.
Defined.

(** C3 (as stated) fails: with scores 60 and 30 but neither validator key,
    [verify_subtasks] returns early and no score-sum error is recorded. *)
Lemma score_sum_skipped_without_validator_keys :
  errors (snd (verify_subtasks plain_tail insertion_order
     (repo FMissing
           (FJson (RObj [("subtasks", RObj [("a", subtask_raw 1 60); ("b", subtask_raw 2 30)])]))
           FMissing)
     batch_problem subtasks_state))
  = [("subtasks.json", DNeitherValidatorKey)].
Proof. vm_compute. reflexivity. Qed.

Lemma missing_index_errors_witness :
  verify_subtasks plain_tail insertion_order scenario_b batch_problem subtasks_state
    = (Ok (JObj scenario_b_subtasks),
       snd (verify_subtasks plain_tail insertion_order scenario_b batch_problem subtasks_state)) /\
  exists new,
    errors (snd (verify_subtasks plain_tail insertion_order scenario_b batch_problem subtasks_state))
      = errors subtasks_state ++ new /\
    filter is_missing_index (map snd new) =
      missing_indexes (has_samples batch_problem scenario_b_subtasks)
        (length scenario_b_subtasks) (counted_indexes scenario_b_subtasks).
Proof.
  split; [vm_compute; reflexivity|].
  apply (missing_index_errors plain_tail insertion_order scenario_b batch_problem subtasks_state).
  vm_compute. reflexivity.
Defined.

Definition output_only_problem : json := JObj [("type", JStr "OutputOnly")].

(** C4 fails in the code: an [OutputOnly] problem has no [samples]
    subtask, so the indexes looked for are 1 and 2.  With subtask indexes
    1 and 3, index 2 is missing, and the error recorded is [missing index
    1], naming an index that is present: line 265 prints the loop counter
    [i] while line 264 tested [i + 1]. *)
Theorem missing_index_misnamed :
  errors (snd (verify_subtasks plain_tail insertion_order
     (repo FMissing
           (FJson (RObj [("subtasks", RObj [("a", subtask_raw 1 50); ("b", subtask_raw 3 50)]);
                         ("global_validators", RList [])]))
           FMissing)
     output_only_problem subtasks_state))
  = [("subtasks.json", DMissingIndex 1)].
Proof. vm_compute. reflexivity. Qed.

Lemma samples_required_witness :
  (verify_subtasks plain_tail insertion_order scenario_b batch_problem subtasks_state
    = (Ok (JObj scenario_b_subtasks),
       snd (verify_subtasks plain_tail insertion_order scenario_b batch_problem subtasks_state))) /\
  (lookup "type" [("type", JStr "Batch")] = Some (JStr "Batch")) /\
  (json_is_str (JStr "Batch") "OutputOnly" = false) /\
  (key_in "samples" scenario_b_subtasks = false) /\
  exists pre post,
    errors (snd (verify_subtasks plain_tail insertion_order scenario_b batch_problem subtasks_state))
      = errors subtasks_state ++ pre ++ [(namespace subtasks_state, DRequired "samples" None)] ++ post.
Proof.
  split; [vm_compute; reflexivity|].
  split; [reflexivity|]. split; [reflexivity|]. split; [reflexivity|].
  apply (samples_required plain_tail insertion_order scenario_b [("type", JStr "Batch")]
           (JStr "Batch") subtasks_state scenario_b_subtasks);
    [vm_compute; reflexivity | reflexivity | reflexivity | reflexivity].
Defined.

(** C10 (as stated) fails: a [Batch] problem whose [subtasks.json] has no
    validator key gets no [samples is required] error, since
    [verify_subtasks] returns before it looks for [samples]. *)
Lemma samples_not_required_without_validator_keys :
  errors (snd (verify_subtasks plain_tail insertion_order
     (repo FMissing (FJson (RObj [("subtasks", RObj [])])) FMissing)
     batch_problem subtasks_state))
  = [("subtasks.json", DNeitherValidatorKey)].
Proof. vm_compute. reflexivity. Qed.

Local Open Scope string_scope.

(** ** Subtask-sensitive validators built from plain pieces (C7) *)

Fixpoint str_forall (p : ascii -> bool) (s : string) : bool :=
  match s with
  | EmptyString => true
  | String c t => p c && str_forall p t
  end.

(** Characters that end or split a field name or a literal. *)
Definition is_brace (c : ascii) : bool := Ascii.eqb c "{"%char || Ascii.eqb c "}"%char.


(** A literal without braces, and a field name that is a plain keyword
    (not empty, not starting with a digit, no special character). *)
Definition lit_ok (t : string) : bool := str_forall (fun c => negb (is_brace c)) t.








Lemma append_assoc_str (a b c : string) : (a ++ b) ++ c = a ++ (b ++ c).
Proof. induction a; simpl; congruence. Qed.

Lemma append_empty_str (a : string) : a ++ "" = a.
Proof. induction a; simpl; congruence. Qed.

Lemma fmt_run_app rt kw st a b :
  fmt_run rt kw st (a ++ b) =
    match fmt_run rt kw st a with Ok st' => fmt_run rt kw st' b | Raise e => Raise e end.
Proof.
  revert st. induction a as [|c a IH]; intros st; [reflexivity|].
  simpl. destruct (fmt_step rt kw st c); [apply IH|reflexivity].
Qed.

Lemma fmt_run_lit rt kw out t :
  lit_ok t = true -> fmt_run rt kw (MLit, out) t = Ok (MLit, out ++ t).
Proof.
  revert out. induction t as [|c t IH]; intros out H.
  - simpl. rewrite append_empty_str. reflexivity.
  - simpl in H. apply andb_prop in H. destruct H as [Hc Ht].
    unfold is_brace in Hc. simpl.
    destruct (Ascii.eqb c "{"%char), (Ascii.eqb c "}"%char); try discriminate.
    rewrite IH by exact Ht. unfold snoc. rewrite append_assoc_str. reflexivity.
Qed.
















(** [subtasks.json] with a [samples] subtask, a subtask [a] scoring 100
    and the one subtask-sensitive validator [cmd]. *)
Definition sensitive_repo (cmd : string) : env :=
  repo FMissing
       (FJson (RObj [("subtasks", RObj [("samples", subtask_raw 0 0); ("a", subtask_raw 1 100)]);
                     ("subtask_sensitive_validators", RList [RStr cmd])]))
       FMissing.

(** C7 fails in the code: the unknown named placeholder of [gen {x}] is
    reported, but the unknown positional placeholder of [gen {0}] makes
    [str.format] raise [IndexError], which the [except KeyError] of line
    216 does not catch: [verify_subtasks], and with it [verify], stops
    with the exception instead of recording the error. *)
Theorem positional_placeholder_crashes :
  errors (snd (verify_subtasks plain_tail insertion_order (sensitive_repo "gen {x}")
                 batch_problem subtasks_state))
    = [("subtasks.json", DUnknownPlaceholder "gen {x}" "x")] /\
  fst (verify_subtasks plain_tail insertion_order (sensitive_repo "gen {0}")
         batch_problem subtasks_state)
    = Raise IndexError.
Proof. vm_compute. split; reflexivity. Qed.

(** * Further properties of the script *)

Local Open Scope list_scope.

(** Python's escaping of a literal text for [str.format]: every brace
    is doubled. *)
Fixpoint escape_braces (t : string) : string :=
  match t with
  | EmptyString => EmptyString
  | String c r => if is_brace c then String c (String c (escape_braces r))
                  else String c (escape_braces r)
  end.


(** Number of occurrences of [k] in [l]. *)
Definition count_key (k : string) (l : list string) : nat := length (filter (String.eqb k) l).

(** The action returns normally from every state: it raises nothing. *)
Definition ok_run {A} (m : M A) : Prop := forall s, exists a s', m s = (Ok a, s').

(** The keys [verify_problem] requires in [problem.json]. *)
Definition problem_keys : list string := ["name"; "title"; "type"; "time_limit"; "memory_limit"].

(** The errors [verify_solutions] reports about the set of solutions:
    1 for [... does not exists], 2 for [there is more than one model
    solutions], 3 for [there is no model solution], 4 for [... is not
    represented]; 0 for every other error. *)
Definition sol_kind (d : diag) : nat :=
  match d with
  | DNotExists _ => 1
  | DMoreThanOneModel => 2
  | DNoModel => 3
  | DNotRepresented _ => 4
  | _ => 0
  end%nat.

Definition of_kind (n : nat) (d : diag) : bool := Nat.eqb (sol_kind d) n.

Definition other_kind (d : diag) : Prop := sol_kind d = 0%nat.

(** [k in files], for the [set] of solution files. *)
Definition mem (files : list string) (k : string) : bool := existsb (String.eqb k) files.

(** The entry [k] of [solutions.json] is a dict whose ['verdict'] is
    [model_solution]. *)
Definition is_model_entry (kvs : list (string * json)) (k : string) : bool :=
  match lookup k kvs with
  | Some (JObj d) =>
      match lookup "verdict" d with
      | Some v => json_is_str v model_solution_verdict
      | None => false
      end
  | _ => false
  end.

Definition has_model (m : option string) : bool :=
  match m with Some _ => true | None => false end.

(** Number of keys of [ks] that name a file of [solution/] and a
    model-solution entry. *)
Definition models (kvs : list (string * json)) (files ks : list string) : nat :=
  length (filter (fun k => mem files k && is_model_entry kvs k) ks).

(** The files [verify] checks in its ['not found'] stage. *)
Definition checked_files (e : env) : list string :=
  necessary_files ++
  (if env_true (has_grader_env e) then grader_necessary_files e else []) ++
  (if env_true (has_manager_env e) then manager_necessary_files else []).

(** [x] is the first word of a string of [l], holds a ['.'] and is a
    file of [validator/]: what [check_validator_key] adds to
    [used_validators]. *)
Definition used_from (vf : list string) (l : list json) (x : string) : Prop :=
  In x vf /\ str_contains "." x = true /\
  exists line, In (JStr line) l /\ split_space_first line = x.

Lemma get_model_solution_from_keys (kvs : list (string * json)) i :
  get_model_solution_from (enumerate i (map (fun p => JStr (fst p)) kvs)) = Ok None.
Proof. revert i. induction kvs as [|p kvs IH]; intros i; [reflexivity|]. simpl. apply IH. Qed.

(** [get_model_solution] applied to a dict, the form [load_data] gives
    [solutions.json], iterates over its keys, which are strings and never
    dicts: it finds no model solution and returns [None]. *)
Theorem get_model_solution_dict (kvs : list (string * json)) :
  get_model_solution (JObj kvs) = Ok None.
Proof. unfold get_model_solution. simpl py_iter. apply get_model_solution_from_keys. Qed.

(** The formatter reads an escaped text back as literal text. *)
Lemma fmt_run_escaped rt kw out t :
  fmt_run rt kw (MLit, out) (escape_braces t) = Ok (MLit, (out ++ t)%string).
Proof.
  revert out. induction t as [|c t IH]; intros out.
  - simpl. rewrite append_empty_str. reflexivity.
  - cbn [escape_braces]. unfold is_brace.
    destruct (Ascii.eqb c "{"%char) eqn:E1; [|destruct (Ascii.eqb c "}"%char) eqn:E2]; cbn [orb].
    + apply Ascii.eqb_eq in E1. subst c. cbn [fmt_run fmt_step]. cbn.
      rewrite IH. unfold snoc. rewrite append_assoc_str. reflexivity.
    + apply Ascii.eqb_eq in E2. subst c. cbn [fmt_run fmt_step]. cbn.
      rewrite IH. unfold snoc. rewrite append_assoc_str. reflexivity.
    + cbn [fmt_run fmt_step]. rewrite E1, E2. rewrite IH. unfold snoc. rewrite append_assoc_str. reflexivity.
Qed.

(** Round trip: [str.format] with any keyword arguments gives back the
    text whose braces were doubled. *)
Theorem str_format_escaped rt kw t : str_format rt (escape_braces t) kw = Ok t.
Proof. unfold str_format. rewrite fmt_run_escaped. reflexivity. Qed.

(** A subtask-sensitive validator command with only escaped braces has no
    placeholder: [check_placeholders] records the one error [does not
    contain the subtask placeholder], unless the unescaped text already
    holds the sentinel string. *)
Theorem escaped_validator_no_placeholder rt t s :
  check_subtask_sensitive_validator rt (JStr (escape_braces t)) s =
    if str_contains subtask_placeholder_substitute t then (Ok tt, s)
    else (Ok tt, add_errors s [DNoPlaceholder (escape_braces t)]).
Proof.
  unfold check_subtask_sensitive_validator, str_format. rewrite fmt_run_escaped. cbn [append].
  destruct (str_contains subtask_placeholder_substitute t); reflexivity.
Qed.

Lemma prefix_same_char c b : prefix (String c EmptyString) (String c b) = true.
Proof. simpl. destruct (ascii_dec c c) as [_|N]; [destruct b; reflexivity|contradiction]. Qed.

(** A subtask-sensitive validator command with a lone ['}'] after
    brace-free text makes [str.format] raise [ValueError], which the
    [except KeyError] around it does not catch: the check aborts with no
    error recorded. *)
Theorem lone_close_brace_crashes rt a b s
    (Ha : lit_ok a = true) (Hb : prefix "}" b = false) :
  check_subtask_sensitive_validator rt (JStr (a ++ "}" ++ b)%string) s = (Raise ValueError, s).
Proof.
  unfold check_subtask_sensitive_validator, str_format.
  rewrite fmt_run_app, fmt_run_lit by exact Ha. cbn [append].
  destruct b as [|c b].
  - reflexivity.
  - cbn [append fmt_run fmt_step]. cbn - [fmt_run].
    destruct (Ascii.eqb_spec c "}") as [->|Hc].
    + rewrite prefix_same_char in Hb. discriminate.
    + reflexivity.
Qed.









(** The loop of [error_on_duplicate_keys] over [ps], started from the
    dict [acc]. *)
Lemma duplicate_fold_count (ps acc : list (string * json)) s :
  exists ds,
    fold_m ps acc duplicate_step s =
      (Ok (acc ++ dedup_first (filter (fun p => negb (key_in (fst p) acc)) ps)),
       add_errors s (map DDuplicateKey ds)) /\
    forall k, count_key k ds = (count_key k (map fst ps) - if key_in k acc then 0 else 1)%nat.
Proof.
  revert acc s. induction ps as [|[k v] ps IH]; intros acc s.
  - exists []. simpl. rewrite app_nil_r, add_errors_nil. split; [reflexivity|].
    intros k. destruct (key_in k acc); reflexivity.
  - simpl fold_m. unfold duplicate_step at 1. simpl fst.
    destruct (key_in k acc) eqn:Hk.
    + destruct (IH acc (add_errors s [DDuplicateKey k])) as [ds [E C]].
      exists (k :: ds). simpl filter. rewrite Hk. simpl negb. cbv iota.
      unfold bind at 1. rewrite (bind_ok _ _ _ _ _ (error_add s _)).
      cbn -[add_errors fold_m]. rewrite E, add_errors_app.
      split; [reflexivity|]. intros k'. specialize (C k'). unfold count_key in *.
      cbn [map fst filter]. destruct (String.eqb k' k) eqn:Ek; cbn [length].
      * rewrite C. apply String.eqb_eq in Ek. subst k'. rewrite Hk. lia.
      * exact C.
    + destruct (IH (acc ++ [(k, v)]) s) as [ds [E C]].
      exists ds. simpl filter. rewrite Hk. simpl negb. cbv iota.
      unfold bind at 1. cbn -[add_errors fold_m]. rewrite E.
      rewrite filter_notin_snoc in *. rewrite <- remove_key_dedup in *.
      simpl dedup_first. rewrite <- app_assoc. simpl. split; [reflexivity|].
      intros k'. specialize (C k'). unfold count_key in *. rewrite key_in_app in C.
      unfold key_in at 2 in C. cbn [existsb fst] in C. rewrite orb_false_r in C.
      cbn [map fst filter]. destruct (String.eqb k' k) eqn:Ek; cbn [length].
      * apply String.eqb_eq in Ek. subst k'. rewrite Hk in *. rewrite orb_true_r in C. lia.
      * rewrite orb_false_r in C. exact C.
Qed.

Lemma lookup_remove_key {A} k k' (l : list (string * A)) :
  lookup k (remove_key k' l) = if String.eqb k' k then None else lookup k l.
Proof.
  unfold remove_key. induction l as [|[k'' v] l IH]; simpl.
  - destruct (String.eqb k' k); reflexivity.
  - destruct (String.eqb_spec k' k'') as [<-|N1]; simpl.
    + rewrite IH. destruct (String.eqb_spec k' k) as [<-|N2]; [reflexivity|].
      destruct (String.eqb_spec k k') as [->|]; [contradiction|reflexivity].
    + rewrite IH. destruct (String.eqb_spec k k'') as [->|N2].
      * destruct (String.eqb_spec k' k''); [contradiction|reflexivity].
      * reflexivity.
Qed.

(** The first value of each key is kept. *)
Lemma lookup_dedup_first {A} k (l : list (string * A)) : lookup k (dedup_first l) = lookup k l.
Proof.
  induction l as [|[k' v] l IH]; [reflexivity|]. simpl.
  rewrite lookup_remove_key, IH, (String.eqb_sym k' k). destruct (String.eqb k k'); reflexivity.
Qed.

(** [error_on_duplicate_keys] reports a key [c - 1] times when it occurs
    [c >= 1] times, keeps the first value of every key and drops no key. *)
Theorem error_on_duplicate_keys_counts (kvs : list (string * json)) s :
  exists ds,
    error_on_duplicate_keys kvs s =
      (Ok (JObj (dedup_first kvs)), add_errors s (map DDuplicateKey ds)) /\
    (forall k, count_key k ds = count_key k (map fst kvs) - 1)%nat /\
    (forall k, lookup k (dedup_first kvs) = lookup k kvs) /\
    (forall k, key_in k (dedup_first kvs) = key_in k kvs).
Proof.
  destruct (duplicate_fold_count kvs [] s) as [ds [E C]]. exists ds.
  unfold error_on_duplicate_keys. rewrite (bind_ok _ _ _ _ _ E). simpl.
  rewrite filter_true. split; [reflexivity|].
  split; [intros k; rewrite C; reflexivity|]. split; intros k; [apply lookup_dedup_first|apply key_in_dedup_first].
Qed.

(** [load_data] on a parsed JSON object. *)
Lemma load_data_obj_eq (ps : list (string * raw)) (required_keys : list string) s :
  exists ds,
    load_data (FJson (RObj ps)) required_keys s =
      (Ok (if forallb (fun k => key_in k ps) required_keys then to_json (RObj ps) else JNull),
       add_errors s (map DDuplicateKey ds ++
                     map (fun k => DRequired k None) (filter (fun k => negb (key_in k ps)) required_keys))) /\
    length ds = dup_count (RObj ps).
Proof.
  destruct (decode_spec (RObj ps) s) as [ds [E L]].
  exists ds. unfold load_data. rewrite (bind_ok _ _ _ _ _ E).
  split; [|exact L].
  simpl to_json. unfold catch_KeyError, try_except.
  set (kvs := dedup_first (map (fun p => (fst p, to_json (snd p))) ps)).
  assert (K : forall k, key_in k kvs = key_in k ps).
  { intros k. unfold kvs. rewrite key_in_dedup_first, key_in_map_snd. reflexivity. }
  assert (F : forallb (fun k => key_in k kvs) required_keys = forallb (fun k => key_in k ps) required_keys).
  { induction required_keys as [|k keys IH]; [reflexivity|]. simpl. rewrite K, IH. reflexivity. }
  assert (N : filter (fun k => negb (key_in k kvs)) required_keys = filter (fun k => negb (key_in k ps)) required_keys).
  { clear F. induction required_keys as [|k keys IH]; [reflexivity|]. simpl. rewrite K, IH. reflexivity. }
  pose proof (check_keys_obj kvs required_keys None (add_errors s (map DDuplicateKey ds))) as C.
  rewrite add_errors_app in C.
  rewrite F, N in C. unfold bind at 1. rewrite C. cbn [truthy_name].
  destruct (forallb (fun k => key_in k ps) required_keys); reflexivity.
Qed.

(** [load_data] on a file holding a JSON object records one duplicate-key
    error per repeated key, at any depth, then one [... is required] error
    per missing required key in order. It returns the dict when no
    required key is missing and [None] otherwise. *)
Theorem load_data_object (ps : list (string * raw)) (required_keys : list string) s :
  exists ds,
    load_data (FJson (RObj ps)) required_keys s =
      (Ok (if forallb (fun k => key_in k ps) required_keys then to_json (RObj ps) else JNull),
       add_errors s (map DDuplicateKey ds ++
                     map (fun k => DRequired k None) (filter (fun k => negb (key_in k ps)) required_keys))) /\
    length ds = dup_count (RObj ps).
Proof. apply load_data_obj_eq. Qed.

Lemma ok_ret {A} (a : A) : ok_run (ret a).
Proof. intros s. do 2 eexists. reflexivity. Qed.

Lemma ok_lift {A} (a : A) : ok_run (lift (Ok a)).
Proof. intros s. do 2 eexists. reflexivity. Qed.

Lemma ok_error d : ok_run (error d).
Proof. intros s. do 2 eexists. reflexivity. Qed.

Lemma ok_warning w : ok_run (warning w).
Proof. intros s. do 2 eexists. reflexivity. Qed.

Lemma ok_bind {A B} (m : M A) (f : A -> M B) :
  ok_run m -> (forall a, ok_run (f a)) -> ok_run (bind m f).
Proof.
  intros Hm Hf s. destruct (Hm s) as [a [s1 E]]. rewrite (bind_ok _ _ _ _ _ E). apply Hf.
Qed.

Lemma ok_bind_lift {A B} (a : A) (f : A -> M B) : ok_run (f a) -> ok_run (bind (lift (Ok a)) f).
Proof. intros H s. apply H. Qed.

Ltac ok_tac :=
  repeat match goal with
  | |- ok_run (bind _ _) => apply ok_bind; [|intros]
  | |- ok_run (ret _) => apply ok_ret
  | |- ok_run (lift (Ok _)) => apply ok_lift
  | |- ok_run (error _) => apply ok_error
  | |- ok_run (warning _) => apply ok_warning
  | |- ok_run (if ?b then _ else _) => destruct b
  | |- ok_run (match ?x with _ => _ end) => destruct x
  end.

Lemma lookup_of_key_in {A} k (d : list (string * A)) :
  key_in k d = true -> exists v, lookup k d = Some v.
Proof. apply lookup_some_iff. Qed.

(** [d[k]] on a dict holding [k] does not raise. *)
Lemma ok_getitem {B} kvs k (f : json -> M B) :
  key_in k kvs = true -> (forall v, ok_run (f v)) -> ok_run (bind (lift (py_getitem (JObj kvs) k)) f).
Proof.
  intros Hk Hf. destruct (lookup_of_key_in _ _ Hk) as [v Hv].
  cbn [py_getitem]. rewrite Hv. apply ok_bind; [apply ok_lift|exact Hf].
Qed.

Lemma ok_check_name e name :
  (web_terminal_true e = true \/
     exists out, git_origin e = Some out /\ utf8_decode (bytes_strip out) <> None) -> ok_run (check_name e name).
Proof.
  intros Hg. unfold check_name. destruct name; try apply ok_error.
  destruct (web_terminal_true e) eqn:W; [apply ok_ret|].
  destruct Hg as [|(out & Ho & Hu)]; [congruence|]. rewrite Ho.
  destruct (utf8_decode (bytes_strip out)); [ok_tac|congruence].
Qed.

Lemma ok_check_statement e title :
  statement_file e <> SUndecodable -> ok_run (check_statement e title).
Proof.
  intros Hs. unfold check_statement. destruct (statement_file e); [apply ok_warning|congruence|].
  ok_tac.
Qed.

Lemma ok_check_time_limit t : ok_run (check_time_limit t).
Proof. unfold check_time_limit. ok_tac. Qed.

Lemma ok_check_memory_limit m : ok_run (check_memory_limit m).
Proof. unfold check_memory_limit. ok_tac. Qed.

(** [verify_problem] raises no exception when [problem.json], if it
    parses, holds an object, when the git command is available or
    [WEB_TERMINAL] is ["true"], and when the statement, if present, can be
    decoded. *)
Theorem verify_problem_no_crash (e : env) (s : state)
    (Hobj : forall r, problem_file e = FJson r -> exists ps, r = RObj ps)
    (Hgit : web_terminal_true e = true \/
            exists out, git_origin e = Some out /\ utf8_decode (bytes_strip out) <> None)
    (Hst : statement_file e <> SUndecodable) :
  exists v s', verify_problem e s = (Ok v, s').
Proof.
  unfold verify_problem.
  destruct (problem_file e) as [| |r] eqn:Hf.
  - do 2 eexists. reflexivity.
  - do 2 eexists. reflexivity.
  - destruct (Hobj r eq_refl) as [ps ->].
    destruct (load_data_obj_eq ps problem_keys s) as [ds [E _]].
    fold problem_keys. rewrite (bind_ok _ _ _ _ _ E).
    destruct (forallb (fun k => key_in k ps) problem_keys) eqn:K; [|do 2 eexists; reflexivity].
    cbn [to_json]. set (kvs := dedup_first (map (fun p => (fst p, to_json (snd p))) ps)).
    assert (Hk : forall k, In k problem_keys -> key_in k kvs = true).
    { intros k Hin. unfold kvs. rewrite key_in_dedup_first, key_in_map_snd.
      rewrite forallb_forall in K. apply K, Hin. }
    match goal with |- exists v s', ?m ?st = _ => enough (Hok : ok_run m) by exact (Hok st) end.
    assert (Hname : key_in "name" kvs = true) by (apply Hk; simpl; tauto).
    assert (Htitle : key_in "title" kvs = true) by (apply Hk; simpl; tauto).
    assert (Htype : key_in "type" kvs = true) by (apply Hk; simpl; tauto).
    assert (Htl : key_in "time_limit" kvs = true) by (apply Hk; simpl; tauto).
    assert (Hml : key_in "memory_limit" kvs = true) by (apply Hk; simpl; tauto).
    apply ok_getitem; [exact Hname|intros name].
    apply ok_bind; [apply ok_check_name, Hgit|intros _].
    apply ok_getitem; [exact Htitle|intros title].
    apply ok_bind; [ok_tac|intros _].
    apply ok_bind; [apply ok_check_statement, Hst|intros _].
    apply ok_getitem; [exact Htype|intros type].
    apply ok_bind; [ok_tac|intros _].
    cbn [py_contains]. apply ok_bind_lift.
    apply ok_bind; [destruct (key_in "has_grader" kvs) eqn:G; [apply ok_getitem; [exact G|intros g; ok_tac]|apply ok_ret]|intros _].
    apply ok_bind_lift.
    apply ok_bind; [destruct (key_in "has_manager" kvs) eqn:G; [apply ok_getitem; [exact G|intros m; ok_tac]|apply ok_ret]|intros _].
    apply ok_getitem; [exact Htl|intros tl].
    apply ok_bind; [apply ok_check_time_limit|intros _].
    apply ok_getitem; [exact Hml|intros ml].
    apply ok_bind; [apply ok_check_memory_limit|intros _].
    apply ok_ret.
Qed.

(** [load_data] returns [None] or the parsed file. *)
Lemma load_data_ok f ks s x s1 :
  load_data f ks s = (Ok x, s1) -> x = JNull \/ exists r, f = FJson r /\ x = to_json r.
Proof.
  destruct f as [| |r]; intros H.
  - cbv in H. left. congruence.
  - cbv in H. left. congruence.
  - destruct (decode_spec r s) as [ds [E _]]. unfold load_data in H.
    rewrite (bind_ok _ _ _ _ _ E) in H. unfold catch_KeyError, try_except, bind in H.
    destruct (check_keys (to_json r) ks None (add_errors s (map DDuplicateKey ds))) as [[[]|ex] s2].
    + injection H as <- _. right. eauto.
    + destruct ex; try discriminate. injection H as <- _. left. reflexivity.
Qed.

Lemma to_json_obj r kvs : to_json r = JObj kvs -> exists ps, r = RObj ps.
Proof. destruct r; simpl; try discriminate. eauto. Qed.

(** When [verify_problem] returns something other than [None], it is the
    parsed [problem.json], an object that holds all of [name], [title],
    [type], [time_limit] and [memory_limit]. *)
Theorem verify_problem_returns_dict e s v s'
    (H : verify_problem e s = (Ok v, s')) (Hv : v <> JNull) :
  exists ps,
    problem_file e = FJson (RObj ps) /\ v = to_json (RObj ps) /\
    forallb (fun k => key_in k ps) problem_keys = true.
Proof.
  unfold verify_problem in H. binv H. fold problem_keys in Hm.
  destruct (load_data_ok _ _ _ _ _ Hm) as [->|[r [Hf ->]]].
  - cbv in H. congruence.
  - destruct (to_json r) eqn:T;
      try (cbn [py_getitem lift bind] in H; discriminate).
    + cbv in H. congruence.
    + destruct (to_json_obj _ _ T) as [ps ->]. exists ps.
      rewrite Hf in Hm. destruct (load_data_obj_eq ps problem_keys s) as [ds [E _]].
      rewrite Hm in E. rewrite T in E.
      destruct (forallb (fun k => key_in k ps) problem_keys) eqn:K; [|injection E; discriminate].
      repeat (apply bind_ok_inv in H; destruct H as (? & ? & _ & H)).
      cbv [ret] in H. injection H as <- _.
      split; [exact Hf|split; [symmetry; exact T|reflexivity]].
Qed.

Lemma lookup_map_snd {A B} (g : A -> B) k (l : list (string * A)) :
  lookup k (map (fun p => (fst p, g (snd p))) l) = option_map g (lookup k l).
Proof.
  induction l as [|[k' v] l IH]; [reflexivity|]. simpl. destruct (String.eqb k k'); [reflexivity|exact IH].
Qed.

(** When [WEB_TERMINAL] is not ["true"], a [problem.json] with a string
    [name] and a git remote whose stripped output is not UTF-8 make
    [verify_problem] raise [UnicodeDecodeError] (a [ValueError]) at
    [.decode('utf-8')]. *)
Theorem non_utf8_remote_crashes e s ps n out
    (Hf : problem_file e = FJson (RObj ps))
    (Hk : forallb (fun k => key_in k ps) problem_keys = true)
    (Hn : lookup "name" ps = Some (RStr n))
    (Hw : web_terminal_true e = false)
    (Hg : git_origin e = Some out)
    (Hu : utf8_decode (bytes_strip out) = None) :
  fst (verify_problem e s) = Raise ValueError.
Proof.
  unfold verify_problem. rewrite Hf.
  destruct (load_data_obj_eq ps problem_keys s) as [ds [E _]].
  fold problem_keys. unfold bind at 1. rewrite E, Hk. cbn [to_json].
  set (kvs := dedup_first (map (fun p => (fst p, to_json (snd p))) ps)).
  assert (L : lookup "name" kvs = Some (JStr n)).
  { unfold kvs. rewrite lookup_dedup_first, lookup_map_snd, Hn. reflexivity. }
  unfold bind at 1. cbn [lift py_getitem]. rewrite L.
  unfold bind at 1. unfold check_name. rewrite Hw, Hg, Hu. reflexivity.
Qed.

Lemma filter_other n (l : list (string * diag)) :
  Forall (fun p => other_kind (snd p)) l -> n <> 0%nat -> filter (of_kind n) (map snd l) = [].
Proof.
  intros F N. induction F as [|p l Hp F IH]; [reflexivity|]. simpl. rewrite IH.
  unfold of_kind. unfold other_kind in Hp. rewrite Hp. destruct n; [contradiction|reflexivity].
Qed.

Lemma adds_check_except sub k data : adds_only other_kind (check_except sub k data).
Proof. unfold check_except, verify_verdict. adds_tac; reflexivity. Qed.

Lemma remove_str_absent f k : mem f k = false -> remove_str f k = f.
Proof.
  unfold mem, remove_str. induction f as [|x f IH]; intros H; [reflexivity|].
  simpl in H |- *. apply orb_false_elim in H. destruct H as [H1 H2].
  rewrite String.eqb_sym, H1. simpl. rewrite IH by exact H2. reflexivity.
Qed.

Lemma model_valid v : json_is_str v model_solution_verdict = true -> valid_verdict v = true.
Proof. destruct v; try discriminate. simpl. intros H. apply String.eqb_eq in H. subst. reflexivity. Qed.

Lemma lookup_none_iff {A} k (d : list (string * A)) : key_in k d = false <-> lookup k d = None.
Proof.
  split.
  - intros H. destruct (lookup k d) eqn:E; [|reflexivity].
    rewrite (lookup_key_in _ _ _ E) in H. discriminate.
  - apply lookup_none_key_in.
Qed.

(** One iteration of the loop of [verify_solutions], on the key [k]. *)
Lemma solution_step_spec kvs sub a k s a' s' :
  solution_step (JObj kvs) sub a (JStr k) s = (Ok a', s') ->
  exists new,
    errors s' = errors s ++ new /\ namespace s' = namespace s /\
    filter (of_kind 1) (map snd new) = (if mem (acc_files a) k then [] else [DNotExists (JStr k)]) /\
    filter (of_kind 2) (map snd new) =
      (if mem (acc_files a) k && is_model_entry kvs k && has_model (acc_model a)
       then [DMoreThanOneModel] else []) /\
    filter (of_kind 3) (map snd new) = [] /\
    filter (of_kind 4) (map snd new) = [] /\
    acc_files a' = remove_str (acc_files a) k /\
    acc_model a' = (if mem (acc_files a) k && is_model_entry kvs k then Some k else acc_model a).
Proof.
  unfold solution_step. intros H. binv H. cbn [lift in_solution_files] in Hm.
  injection Hm as <- <-. fold (mem (acc_files a) k) in H |- *.
  destruct (mem (acc_files a) k) eqn:Hmem; cbn [negb andb] in H |- *.
  - cbn iota beta in H.
    binv H. cbn [lift py_getitem] in Hm.
    destruct (lookup k kvs) as [v|] eqn:Hv; [injection Hm as <- <-|discriminate].
    binv H.
    assert (A1 : adds_only other_kind
                   (catch_KeyError (check_keys v ["verdict"] (Some k) ;;; ret true) (ret false)))
      by (apply adds_catch; [apply adds_bind; [apply adds_check_keys; reflexivity|intros; apply adds_ret]
                            |apply adds_ret]).
    destruct (A1 _ _ _ Hm) as [N1 [n1 [E1 F1]]].
    destruct x.
    + cbn [negb] in H. binv_as H vd' s3 Hg. unfold lift in Hg.
      destruct v as [| | | | | |d]; try discriminate Hg.
      cbn [py_getitem] in Hg.
      destruct (lookup "verdict" d) as [vd|] eqn:Hvd; [injection Hg as <- <-|discriminate].
      assert (Me : is_model_entry kvs k = json_is_str vd model_solution_verdict)
        by (unfold is_model_entry; rewrite Hv, Hvd; reflexivity).
      rewrite Me. binv_as H verified s4 Hver. rewrite verify_verdict_eq in Hver.
      binv_as H model s5 Hmod. binv_as H u s6 Hexc.
      destruct (adds_check_except _ _ _ _ _ _ Hexc) as [N4 [n4 [E4 F4]]].
      cbv [ret] in H. injection H as <- <-. cbn [acc_files acc_model andb].
      destruct (json_is_str vd model_solution_verdict) eqn:J.
      * rewrite (model_valid _ J) in Hver. injection Hver as <- <-. cbn [andb] in Hmod.
        destruct (acc_model a) as [m0|] eqn:Am; cbv [bind error ret] in Hmod; injection Hmod as <- <-.
        -- exists (n1 ++ [(namespace s, DMoreThanOneModel)] ++ n4).
           rewrite E4. cbn [errors namespace] in *. rewrite E1, N1, <- !app_assoc.
           split; [reflexivity|]. split; [rewrite N4; cbn; exact N1|].
           rewrite !map_app, !filter_app.
           repeat (rewrite (filter_other _ n1 F1) by discriminate).
           repeat (rewrite (filter_other _ n4 F4) by discriminate).
           repeat split; reflexivity.
        -- exists (n1 ++ n4).
           rewrite E4, E1, <- app_assoc. split; [reflexivity|]. split; [rewrite N4; exact N1|].
           rewrite !map_app, !filter_app.
           repeat (rewrite (filter_other _ n1 F1) by discriminate).
           repeat (rewrite (filter_other _ n4 F4) by discriminate).
           repeat split; reflexivity.
      * assert (Hmod' : model = acc_model a /\ s5 = s4).
        { destruct verified; cbv [andb ret] in Hmod; injection Hmod as <- <-; auto. }
        destruct Hmod' as [-> ->].
        destruct (valid_verdict vd); injection Hver as <- <-.
        -- exists (n1 ++ n4).
           rewrite E4, E1, <- app_assoc. split; [reflexivity|]. split; [rewrite N4; exact N1|].
           rewrite !map_app, !filter_app.
           repeat (rewrite (filter_other _ n1 F1) by discriminate).
           repeat (rewrite (filter_other _ n4 F4) by discriminate).
           repeat split; reflexivity.
        -- exists (n1 ++ [(namespace s, DVerdict k)] ++ n4).
           rewrite E4. cbn [add_errors errors namespace map] in *. rewrite E1, N1, <- !app_assoc.
           split; [reflexivity|]. split; [rewrite N4; cbn; exact N1|].
           rewrite !map_app, !filter_app.
           repeat (rewrite (filter_other _ n1 F1) by discriminate).
           repeat (rewrite (filter_other _ n4 F4) by discriminate).
           repeat split; reflexivity.
    + cbv [negb ret] in H. injection H as <- <-.
      assert (Me : is_model_entry kvs k = false).
      { unfold is_model_entry. rewrite Hv. destruct v as [| | | | | |d]; try reflexivity.
        rewrite catch_check_keys_obj in Hm. injection Hm as Hk _.
        cbn [forallb] in Hk. rewrite andb_true_r in Hk.
        apply lookup_none_iff in Hk. rewrite Hk. reflexivity. }
      rewrite Me. exists n1. rewrite E1, N1.
      repeat split; try reflexivity; apply filter_other; auto.
  - cbv [bind error ret] in H. injection H as <- <-.
    exists [(namespace s, DNotExists (JStr k))]. cbn. rewrite remove_str_absent by exact Hmem.
    repeat split; reflexivity.
Qed.

Lemma mem_remove_str f k x : mem (remove_str f k) x = mem f x && negb (String.eqb x k).
Proof.
  unfold mem, remove_str. induction f as [|y f IH]; [reflexivity|]. cbn [filter existsb].
  destruct (String.eqb_spec y k) as [->|Nyk]; cbn [negb].
  - rewrite IH. destruct (String.eqb x k); cbn [negb andb orb]; [rewrite !andb_false_r|]; reflexivity.
  - cbn [existsb]. rewrite IH. destruct (String.eqb_spec x y) as [->|]; cbn [orb].
    + apply String.eqb_neq in Nyk. rewrite Nyk. reflexivity.
    + reflexivity.
Qed.

Lemma files_step f k ks :
  filter (fun x => negb (mem ks x)) (remove_str f k) = filter (fun x => negb (mem (k :: ks) x)) f.
Proof.
  unfold remove_str. induction f as [|y f IH]; [reflexivity|]. cbn [filter].
  unfold mem at 2. cbn [existsb]. fold (mem ks y).
  destruct (String.eqb y k) eqn:E; simpl; rewrite IH; reflexivity.
Qed.

Lemma filter_ext_notin (p q : string -> bool) k ks :
  ~ In k ks -> (forall x, x <> k -> p x = q x) -> filter p ks = filter q ks.
Proof.
  intros N H. apply filter_ext_in. intros x Hx. apply H. intros ->. contradiction.
Qed.

(** The loop of [verify_solutions] over distinct keys [ks]. *)
Lemma fold_solutions_spec kvs sub ks mo f s a s' :
  NoDup ks ->
  fold_m (map JStr ks) (mkSolAcc mo f) (solution_step (JObj kvs) sub) s = (Ok a, s') ->
  exists new,
    errors s' = errors s ++ new /\ namespace s' = namespace s /\
    filter (of_kind 1) (map snd new) =
      map (fun k => DNotExists (JStr k)) (filter (fun k => negb (mem f k)) ks) /\
    length (filter (of_kind 2) (map snd new)) =
      (models kvs f ks - if has_model mo then 0 else 1)%nat /\
    filter (of_kind 3) (map snd new) = [] /\
    filter (of_kind 4) (map snd new) = [] /\
    acc_files a = filter (fun x => negb (mem ks x)) f /\
    has_model (acc_model a) = has_model mo || negb (models kvs f ks =? 0)%nat.
Proof.
  revert mo f s. induction ks as [|k ks IH]; intros mo f s Hnd H.
  - cbv [map fold_m ret] in H. injection H as <- <-. exists [].
    rewrite app_nil_r. cbn. rewrite filter_true, orb_false_r. repeat split; reflexivity.
  - inversion Hnd as [|k' ks' Hk Hnd' [Ek Eks]]. subst k' ks'.
    cbn [map fold_m] in H. binv_as H a1 s1 Hs. destruct a1 as [mo1 f1].
    destruct (solution_step_spec _ _ _ _ _ _ _ Hs) as (n1 & E1 & N1 & K1 & K2 & K3 & K4 & F1 & M1).
    cbn [acc_files acc_model] in *. subst f1 mo1.
    destruct (IH _ _ _ Hnd' H) as (n2 & E2 & N2 & L1 & L2 & L3 & L4 & G1 & G2).
    assert (Mf : forall x, x <> k -> mem (remove_str f k) x = mem f x).
    { intros x Hx. rewrite mem_remove_str. apply String.eqb_neq in Hx. rewrite Hx, andb_true_r. reflexivity. }
    assert (Fm : filter (fun x => negb (mem (remove_str f k) x)) ks = filter (fun x => negb (mem f x)) ks)
      by (apply (filter_ext_notin _ _ k); [exact Hk|intros x Hx; rewrite Mf by exact Hx; reflexivity]).
    assert (Mm : models kvs (remove_str f k) ks = models kvs f ks)
      by (unfold models; f_equal; apply (filter_ext_notin _ _ k); [exact Hk|intros x Hx; rewrite Mf by exact Hx; reflexivity]).
    rewrite Fm in L1. rewrite Mm in L2, G2. rewrite files_step in G1.
    exists (n1 ++ n2). rewrite E2, E1, app_assoc. split; [reflexivity|]. split; [congruence|].
    rewrite !map_app, !filter_app, K1, K2, K3, K4, L1, L3, L4, length_app.
    unfold models in *. cbn [filter map].
    destruct (mem f k) eqn:Hm; destruct (is_model_entry kvs k) eqn:Hi; destruct (has_model mo) eqn:Hh;
      cbn [andb negb app map length] in *;
      repeat split; try reflexivity; try exact G1; try exact G2; try lia.

all: cbn [has_model] in L2, G2; rewrite ?Hh in L2, G2; try lia; rewrite G2; reflexivity.
Qed.

Lemma adds_load_data_other f ks : adds_only other_kind (load_data f ks).
Proof.
  unfold load_data. destruct f as [| |r]; [adds_tac; reflexivity .. |].
  apply adds_bind.
  - intros s r' s' H. destruct (decode_spec r s) as [ds [E _]]. rewrite E in H.
    injection H as _ <-. split; [reflexivity|]. exists (map (pair (namespace s)) (map DDuplicateKey ds)).
    split; [reflexivity|]. apply Forall_forall. intros x Hx.
    apply in_map_iff in Hx. destruct Hx as [d [<- Hd]]. apply in_map_iff in Hd.
    destruct Hd as [k [<- _]]. reflexivity.
  - intros a. apply adds_catch; [apply adds_bind; [apply adds_check_keys; reflexivity|intros; apply adds_ret]|apply adds_ret].
Qed.

Lemma nodup_filter_fst {A} (p : string * A -> bool) (l : list (string * A)) :
  NoDup (map fst l) -> NoDup (map fst (filter p l)).
Proof.
  induction l as [|x l IH]; intros H; [constructor|]. inversion H as [|y ys Hn Hd]. subst.
  simpl. destruct (p x); simpl; [|auto]. constructor; [|auto].
  intros Hin. apply Hn. apply in_map_iff in Hin. destruct Hin as [z [Ez Hz]].
  apply filter_In in Hz. apply in_map_iff. exists z. split; [exact Ez|apply Hz].
Qed.

Lemma nodup_dedup_first {A} (l : list (string * A)) : NoDup (map fst (dedup_first l)).
Proof.
  induction l as [|[k v] l IH]; [constructor|]. simpl. constructor.
  - intros Hin. apply in_map_iff in Hin. destruct Hin as [[k' v'] [Ek Hz]]. simpl in Ek. subst k'.
    unfold remove_key in Hz. apply filter_In in Hz. destruct Hz as [_ Hz]. simpl in Hz.
    rewrite String.eqb_refl in Hz. discriminate.
  - apply nodup_filter_fst, IH.
Qed.

Lemma for_each_error {A} (l : list A) (g : A -> diag) s :
  for_each l (fun x => error (g x)) s = (Ok tt, add_errors s (map g l)).
Proof.
  unfold for_each. revert s. induction l as [|x l IH]; intros s.
  - simpl. rewrite add_errors_nil. reflexivity.
  - cbn [fold_m]. rewrite (bind_ok _ _ _ _ _ (error_add s (g x))), IH, add_errors_app. reflexivity.
Qed.

Lemma mem_map_fst (kvs : list (string * json)) x : mem (map fst kvs) x = key_in x kvs.
Proof. unfold mem, key_in. induction kvs as [|p kvs IH]; simpl; [reflexivity|]. rewrite IH. reflexivity. Qed.

Lemma filter_kind_notrep j l :
  filter (of_kind j) (map DNotRepresented l) = if (j =? 4)%nat then map DNotRepresented l else [].
Proof.
  destruct (Nat.eqb_spec j 4) as [->|N].
  - induction l as [|x l IH]; simpl; [reflexivity|]. rewrite IH. reflexivity.
  - induction l as [|x l IH]; [reflexivity|]. cbn [map filter]. unfold of_kind at 1. cbn [sol_kind].
    replace (4 =? j)%nat with false by (symmetry; apply Nat.eqb_neq; congruence). exact IH.
Qed.

Lemma verify_solutions_loaded se e sub s v s' :
  verify_solutions se e sub s = (Ok v, s') ->
  exists s1, load_data (solutions_file e) [] s = (Ok v, s1).
Proof.
  intros H. unfold verify_solutions in H. binv_as H x s1 Hload. exists s1. rewrite Hload.
  destruct x; destruct sub; try (cbv [ret] in H; congruence);
    repeat (apply bind_ok_inv in H; destruct H as (? & ? & _ & H)); cbv [ret] in H; congruence.
Qed.

(** [verify_solutions] past the loading of its data. *)
Lemma verify_solutions_unfold se e sub s x s1 :
  sub <> JNull -> x <> JNull ->
  load_data (solutions_file e) [] s = (Ok x, s1) ->
  verify_solutions se e sub s =
    (files <- lift (get_list_of_files (solution_listing e)) ;;
     names <- lift (py_iter x) ;;
     a <- fold_m names (mkSolAcc None files) (solution_step x sub) ;;
     (match acc_model a with None => error DNoModel | Some _ => ret tt end) ;;;
     for_each (se (acc_files a)) (fun s => error (DNotRepresented s)) ;;;
     ret x) s1.
Proof.
  intros Hs Hx Hl. unfold verify_solutions. rewrite (bind_ok _ _ _ _ _ Hl).
  destruct x; try congruence; destruct sub; try congruence; reflexivity.
Qed.

(** When [verify_solutions] returns the dict of [solutions.json], the
    errors it adds are: one [... does not exists] per key without a file
    of [solution/]; one [... is not represented] per file of [solution/]
    without a key; [n - 1] times [there is more than one model
    solutions], and [there is no model solution] exactly when [n = 0],
    where [n] is the number of keys with a file whose entry has the
    model-solution verdict. *)
Theorem verify_solutions_accounting se e sub kvs s s'
    (Hsub : sub <> JNull)
    (H : verify_solutions se e sub s = (Ok (JObj kvs), s')) :
  exists files new,
    get_list_of_files (solution_listing e) = Ok files /\
    errors s' = errors s ++ new /\
    filter (of_kind 1) (map snd new) =
      map (fun k => DNotExists (JStr k)) (filter (fun k => negb (mem files k)) (map fst kvs)) /\
    filter (of_kind 4) (map snd new) =
      map DNotRepresented (se (filter (fun f => negb (key_in f kvs)) files)) /\
    length (filter (of_kind 2) (map snd new)) = (models kvs files (map fst kvs) - 1)%nat /\
    filter (of_kind 3) (map snd new) = (if (models kvs files (map fst kvs) =? 0)%nat then [DNoModel] else []).
Proof.
  destruct (verify_solutions_loaded _ _ _ _ _ _ H) as [s1 Hload].
  assert (Hnd : NoDup (map fst kvs)).
  { destruct (load_data_ok _ _ _ _ _ Hload) as [|[r [_ Hr]]]; [discriminate|].
    destruct (to_json_obj _ _ (eq_sym Hr)) as [ps ->]. simpl in Hr. injection Hr as ->.
    apply nodup_dedup_first. }
  destruct (adds_load_data_other _ _ _ _ _ Hload) as [N0 [n0 [E0 F0]]].
  rewrite (verify_solutions_unfold se e sub s (JObj kvs) s1 Hsub ltac:(discriminate) Hload) in H.
  binv_as H files s2 Hfiles. unfold lift in Hfiles. injection Hfiles as Gf <-.
  binv_as H names s3 Hnames. cbn [lift py_iter] in Hnames. injection Hnames as <- <-.
  binv_as H a s4 Hfold. rewrite <- (map_map fst JStr) in Hfold.
  destruct (fold_solutions_spec _ _ _ _ _ _ _ _ Hnd Hfold)
    as (n1 & E1 & N1 & L1 & L2 & L3 & L4 & G1 & G2).
  cbn [has_model orb] in L2, G2.
  binv_as H u s5 Hnm. binv_as H u' s6 Hrep. rewrite for_each_error in Hrep. injection Hrep; intros; subst s6 u'.
  cbv [ret] in H. injection H; intros; subst s'.
  assert (Hfiles' : acc_files a = filter (fun f => negb (key_in f kvs)) files)
    by (rewrite G1; apply filter_ext; intros x; rewrite mem_map_fst; reflexivity).
  rewrite Hfiles'. exists files.
  destruct (acc_model a) as [m|] eqn:Am; cbv [ret error] in Hnm; injection Hnm; intros; subst s5; cbn [has_model] in G2.
  - exists (n0 ++ n1 ++ map (pair (namespace s4)) (map DNotRepresented (se (filter (fun f => negb (key_in f kvs)) files)))).
    split; [exact Gf|]. cbn [add_errors errors]. rewrite E1, E0, <- !app_assoc. split; [reflexivity|].
    rewrite !map_app, !filter_app, map_snd_pair, !filter_kind_notrep.
    repeat (rewrite (filter_other _ n0 F0) by discriminate). cbn [Nat.eqb app].
    rewrite L1, L3, L4, ?app_nil_r. split; [reflexivity|]. split; [reflexivity|].
    rewrite ?app_nil_r, L2. split; [reflexivity|].
    destruct (models kvs files (map fst kvs) =? 0)%nat; [discriminate|reflexivity].
  - exists (n0 ++ n1 ++ [(namespace s4, DNoModel)] ++ map (pair (namespace s4)) (map DNotRepresented (se (filter (fun f => negb (key_in f kvs)) files)))).
    split; [exact Gf|]. cbn [add_errors errors namespace]. rewrite E1, E0, <- !app_assoc. split; [reflexivity|].
    rewrite !map_app, !filter_app, map_snd_pair, !filter_kind_notrep.
    repeat (rewrite (filter_other _ n0 F0) by discriminate). cbn [Nat.eqb app map snd filter of_kind sol_kind].
    rewrite L1, L3, L4, ?app_nil_r. split; [reflexivity|]. split; [reflexivity|].
    rewrite ?app_nil_r, L2. destruct (models kvs files (map fst kvs) =? 0)%nat eqn:Z; [|discriminate].
    apply Nat.eqb_eq in Z. rewrite Z. split; reflexivity.
Qed.

(** [verify_existence] records one [not found] error per missing file,
    in order. *)
Lemma verify_existence_eq e files s :
  verify_existence e files s =
    (Ok tt, add_errors s (map DNotFound (filter (fun f => negb (file_exists e f)) files))).
Proof.
  unfold verify_existence, for_each. revert s. induction files as [|f files IH]; intros s.
  - simpl. rewrite add_errors_nil. reflexivity.
  - cbn [fold_m filter]. destruct (file_exists e f) eqn:F; cbn [negb].
    + rewrite (bind_ok _ _ _ _ _ (eq_refl : ret tt s = (Ok tt, s))), IH. reflexivity.
    + rewrite (bind_ok _ _ _ _ _ (error_add s (DNotFound f))), IH, add_errors_app. reflexivity.
Qed.

(** When [verify] returns normally, its last errors are one ['not found']
    error per missing file: the necessary files, then the grader files if
    [HAS_GRADER] is ["true"], then the manager files if [HAS_MANAGER] is
    ["true"]. *)
Theorem verify_not_found_last rt se e s s'
    (H : verify rt se e s = (Ok tt, s')) :
  exists s3,
    errors s' = errors s3 ++
      map (pair "not found") (map DNotFound (filter (fun f => negb (file_exists e f)) (checked_files e))).
Proof.
  unfold verify in H.
  do 6 (apply bind_ok_inv in H; destruct H as (? & ? & _ & H)).
  binv_as H u s3 Hns. cbv [set_namespace] in Hns. injection Hns; intros; subst.
  eexists. binv_as H u1 s4 H1. rewrite verify_existence_eq in H1. injection H1; intros; subst.
  binv_as H u2 s5 H2.
  unfold checked_files. rewrite !filter_app, !map_app.
  assert (Hx : forall (b : bool) l s0 u s1,
             (if b then verify_existence e l else ret tt) s0 = (Ok u, s1) ->
             s1 = add_errors s0 (map DNotFound (filter (fun f => negb (file_exists e f)) (if b then l else [])))).
  { intros [] l s0 u0 s1 Hb.
    - rewrite verify_existence_eq in Hb. injection Hb; intros; subst. reflexivity.
    - cbv [ret] in Hb. injection Hb; intros; subst. rewrite add_errors_nil. reflexivity. }
  apply Hx in H2. apply Hx in H. subst. cbn [add_errors errors namespace]. rewrite <- !app_assoc.
  reflexivity.
Qed.

Lemma map_snd_enumerate {A} i (l : list A) : map snd (enumerate i l) = l.
Proof. revert i. induction l as [|a l IH]; intros i; simpl; [reflexivity|]. f_equal. apply IH. Qed.

Lemma in_set_add_str x u v : In x (set_add_str u v) <-> In x u \/ x = v.
Proof.
  unfold set_add_str. destruct (existsb (String.eqb v) u) eqn:E.
  - apply existsb_exists in E. destruct E as [y [Hy Ey]]. apply String.eqb_eq in Ey. subst y.
    split; [tauto|]. intros [H|H]; [exact H|subst; exact Hy].
  - rewrite in_app_iff. simpl. split.
    + intros [H|[H|[]]]; [left; exact H|right; symmetry; exact H].
    + intros [H|H]; [left; exact H|right; left; symmetry; exact H].
Qed.

Lemma nodup_set_add_str u v : NoDup u -> NoDup (set_add_str u v).
Proof.
  unfold set_add_str. destruct (existsb (String.eqb v) u) eqn:E; intros N; [exact N|].
  apply NoDup_app; [exact N|constructor; [intros []|constructor]|].
  intros x Hx [Ex|[]]. subst v. assert (existsb (String.eqb x) u = true).
  { apply existsb_exists. exists x. split; [exact Hx|apply String.eqb_refl]. }
  congruence.
Qed.

(** When [parent[key]] is a list, [check_validator_key] adds to
    [used_validators] exactly the first words of its strings that hold a
    ['.'] and are files of [validator/]; it adds each at most once. *)
Theorem check_validator_key_used vf used kvs key name parName l s used' s'
    (Hl : lookup key kvs = Some (JList l))
    (H : check_validator_key vf used (JObj kvs) key name parName s = (Ok used', s')) :
  (forall x, In x used' <-> In x used \/ used_from vf l x) /\
  (NoDup used -> NoDup used').
Proof.
  unfold check_validator_key in H.
  assert (K : key_in key kvs = true) by (apply lookup_some_iff; eauto).
  cbn [lift py_contains] in H. rewrite K in H.
  rewrite (bind_ok _ _ _ _ _ (eq_refl : ret true s = (Ok true, s))) in H. cbn [negb] in H.
  cbn [py_getitem] in H. rewrite Hl in H.
  rewrite (bind_ok _ _ _ _ _ (eq_refl : ret (JList l) s = (Ok (JList l), s))) in H.
  rewrite <- (map_snd_enumerate 0 l). unfold used_from.
  revert H. generalize (enumerate 0 l) as ps. intros ps H.
  revert used s H. induction ps as [|[i v] ps IH]; intros used s H.
  - simpl in H. injection H; intros; subst. simpl.
    split; [|tauto]. intros x. split; [tauto|]. intros [Hx|(_ & _ & line & [] & _)]. exact Hx.
  - cbn [fold_m] in H. binv_as H u1 s1 H1. destruct (IH _ _ H) as [IHin IHnd].
    assert (Step : (forall x, In x u1 <-> In x used \/
                      (In x vf /\ str_contains "." x = true /\
                       exists line, v = JStr line /\ split_space_first line = x)) /\
                   (NoDup used -> NoDup u1)).
    { cbn [snd] in H1. destruct v; try (binv_as H1 t s2 E; cbv [ret] in H1; injection H1; intros; subst;
        split; [intros x; split; [tauto|intros [Hx|(_ & _ & line & D & _)]; [exact Hx|discriminate]]|tauto]).
      destruct (str_contains "." (split_space_first s0)) eqn:C.
      - destruct (existsb (String.eqb (split_space_first s0)) vf) eqn:F.
        + cbv [ret] in H1. injection H1; intros; subst. split; [|apply nodup_set_add_str].
          intros x. rewrite in_set_add_str. split.
          * intros [Hx| ->]; [left; exact Hx|right].
            apply existsb_exists in F. destruct F as [y [Hy Ey]]. apply String.eqb_eq in Ey. subst y.
            repeat split; eauto.
          * intros [Hx|(_ & _ & line & D & Ex)]; [left; exact Hx|right].
            injection D; intros; subst. reflexivity.
        + binv_as H1 t s2 E. cbv [ret] in H1. injection H1; intros; subst.
          split; [|tauto]. intros x. split; [tauto|]. intros [Hx|(Hv & _ & line & D & Ex)]; [exact Hx|].
          injection D; intros; subst.
          exfalso. apply Bool.not_true_iff_false in F. apply F, existsb_exists.
          eexists; split; [eassumption|apply String.eqb_refl].
      - cbv [ret] in H1. injection H1; intros; subst.
        split; [|tauto]. intros x. split; [tauto|]. intros [Hx|(_ & Cx & line & D & Ex)]; [exact Hx|].
        injection D; intros; subst. congruence. }
    destruct Step as [Sin Snd]. split; [|tauto].
    intros x. rewrite IHin, Sin. cbn [map In]. split.
    + intros [[Hx|(A & B & line & -> & D)]|(A & B & line & I & D)]; [tauto| |].
      * right. repeat split; eauto. exists line. split; [left; reflexivity|exact D].
      * right. repeat split; eauto.
    + intros [Hx|(A & B & line & [I|I] & D)]; [tauto| |].
      * left. right. repeat split; eauto.
      * right. repeat split; eauto.
Qed.

Lemma lone_close_brace_crashes_witness :
  lit_ok "run " = true /\ prefix "}" " x" = false /\
  check_subtask_sensitive_validator plain_tail (JStr ("run " ++ "}" ++ " x")) subtasks_state
    = (Raise ValueError, subtasks_state).
Proof.
  refine (conj _ (conj _ _)); [vm_compute; reflexivity ..|].
  apply lone_close_brace_crashes; vm_compute; reflexivity.
Defined.

(** A valid [problem.json], no statement, [WEB_TERMINAL] unset and the
    git remote [p.git]. *)
Definition valid_problem_repo : env :=
  mkEnv (FJson (problem_raw (RFloat (FFin 1)) (RInt 256))) FMissing FMissing SMissing
        (Some ("p.git" ++ String (ascii_of_nat 10) EmptyString)%string) None None None (Some "p") (Some []) (Some []) (fun _ => true).

Lemma verify_problem_no_crash_witness :
  (forall r, problem_file valid_problem_repo = FJson r -> exists ps, r = RObj ps) /\
  (web_terminal_true valid_problem_repo = true \/
     exists out, git_origin valid_problem_repo = Some out /\ utf8_decode (bytes_strip out) <> None) /\
  statement_file valid_problem_repo <> SUndecodable /\
  exists v s', verify_problem valid_problem_repo state0 = (Ok v, s').
Proof.
  assert (Hobj : forall r, problem_file valid_problem_repo = FJson r -> exists ps, r = RObj ps).
  { intros r E. injection E; intros <-. eexists. reflexivity. }
  assert (Hgit : web_terminal_true valid_problem_repo = true \/
     exists out, git_origin valid_problem_repo = Some out /\ utf8_decode (bytes_strip out) <> None).
  { right. exists ("p.git" ++ String (ascii_of_nat 10) EmptyString)%string. split; [reflexivity|vm_compute; discriminate]. }
  assert (Hst : statement_file valid_problem_repo <> SUndecodable) by discriminate.
  refine (conj Hobj (conj Hgit (conj Hst _))).
  apply (verify_problem_no_crash _ _ Hobj Hgit Hst).
Defined.

Lemma verify_problem_returns_dict_witness :
  verify_problem valid_problem_repo state0
    = (Ok (to_json (problem_raw (RFloat (FFin 1)) (RInt 256))),
       snd (verify_problem valid_problem_repo state0)) /\
  to_json (problem_raw (RFloat (FFin 1)) (RInt 256)) <> JNull /\
  exists ps,
    problem_file valid_problem_repo = FJson (RObj ps) /\
    to_json (problem_raw (RFloat (FFin 1)) (RInt 256)) = to_json (RObj ps) /\
    forallb (fun k => key_in k ps) problem_keys = true.
Proof.
  assert (H : verify_problem valid_problem_repo state0
    = (Ok (to_json (problem_raw (RFloat (FFin 1)) (RInt 256))),
       snd (verify_problem valid_problem_repo state0))) by (vm_compute; reflexivity).
  assert (Hv : to_json (problem_raw (RFloat (FFin 1)) (RInt 256)) <> JNull) by discriminate.
  refine (conj H (conj Hv _)).
  apply (verify_problem_returns_dict _ _ _ _ H Hv).
Defined.

(** Three entries in [solutions.json], two of them model solutions and
    one without a file; [solution/] holds a file without an entry. *)
Definition solutions_repo : env :=
  mkEnv FMissing FMissing
        (FJson (RObj [("a.cpp", RObj [("verdict", RStr "model_solution")]);
                      ("b.cpp", RObj [("verdict", RStr "model_solution")]);
                      ("x.cpp", RObj [("verdict", RStr "correct")])]))
        SMissing None (Some "true") None None (Some "p")
        (Some []) (Some ["a.cpp"; "b.cpp"; "c.cpp"]) (fun _ => true).

(** The dict [load_data] reads from [solutions_repo]. *)
Definition solutions_repo_entries : list (string * json) :=
  [("a.cpp", JObj [("verdict", JStr "model_solution")]);
   ("b.cpp", JObj [("verdict", JStr "model_solution")]);
   ("x.cpp", JObj [("verdict", JStr "correct")])].

Definition solutions_state : state := mkState [] [] "solutions.json".

Lemma verify_solutions_accounting_witness :
  JObj [] <> JNull /\
  verify_solutions insertion_order solutions_repo (JObj []) solutions_state
    = (Ok (JObj solutions_repo_entries),
       snd (verify_solutions insertion_order solutions_repo (JObj []) solutions_state)) /\
  exists files new,
    get_list_of_files (solution_listing solutions_repo) = Ok files /\
    errors (snd (verify_solutions insertion_order solutions_repo (JObj []) solutions_state))
      = errors solutions_state ++ new /\
    filter (of_kind 1) (map snd new) =
      map (fun k => DNotExists (JStr k))
          (filter (fun k => negb (mem files k)) (map fst solutions_repo_entries)) /\
    filter (of_kind 4) (map snd new) =
      map DNotRepresented
          (insertion_order (filter (fun f => negb (key_in f solutions_repo_entries)) files)) /\
    length (filter (of_kind 2) (map snd new))
      = (models solutions_repo_entries files (map fst solutions_repo_entries) - 1)%nat /\
    filter (of_kind 3) (map snd new)
      = (if (models solutions_repo_entries files (map fst solutions_repo_entries) =? 0)%nat
         then [DNoModel] else []).
Proof.
  assert (Hsub : JObj [] <> JNull) by discriminate.
  assert (H : verify_solutions insertion_order solutions_repo (JObj []) solutions_state
    = (Ok (JObj solutions_repo_entries),
       snd (verify_solutions insertion_order solutions_repo (JObj []) solutions_state)))
    by (vm_compute; reflexivity).
  refine (conj Hsub (conj H _)).
  apply (verify_solutions_accounting _ _ _ _ _ _ Hsub H).
Defined.

(** A complete repository with a grader, where [gen/data] is missing. *)
Definition grader_repo : env :=
  mkEnv (FJson (problem_raw (RFloat (FFin 1)) (RInt 256)))
        (FJson (RObj [("subtasks", RObj [("samples", subtask_raw 0 0); ("a", subtask_raw 1 100)]);
                      ("global_validators", RList [])]))
        (FJson (RObj [("a.cpp", RObj [("verdict", RStr "model_solution")])]))
        SMissing None (Some "true") (Some "true") None (Some "p")
        (Some []) (Some ["a.cpp"]) (fun f => negb (String.eqb f "gen/data")).

Lemma verify_not_found_last_witness :
  verify plain_tail insertion_order grader_repo state0
    = (Ok tt, snd (verify plain_tail insertion_order grader_repo state0)) /\
  exists s3,
    errors (snd (verify plain_tail insertion_order grader_repo state0)) = errors s3 ++
      map (pair "not found")
          (map DNotFound (filter (fun f => negb (file_exists grader_repo f)) (checked_files grader_repo))).
Proof.
  assert (H : verify plain_tail insertion_order grader_repo state0
    = (Ok tt, snd (verify plain_tail insertion_order grader_repo state0))) by (vm_compute; reflexivity).
  split; [exact H|].
  apply (verify_not_found_last _ _ _ _ _ H).
Defined.

Lemma check_validator_key_used_witness :
  lookup "validators" [("validators", JList [JStr "v.cpp --x"; JStr "z.cpp"; JStr "noext"; JInt 3; JStr "v.cpp"])]
    = Some (JList [JStr "v.cpp --x"; JStr "z.cpp"; JStr "noext"; JInt 3; JStr "v.cpp"]) /\
  check_validator_key ["v.cpp"; "w.py"] []
      (JObj [("validators", JList [JStr "v.cpp --x"; JStr "z.cpp"; JStr "noext"; JInt 3; JStr "v.cpp"])])
      "validators" "subtask" (Some "a") subtasks_state
    = (Ok ["v.cpp"],
       snd (check_validator_key ["v.cpp"; "w.py"] []
              (JObj [("validators", JList [JStr "v.cpp --x"; JStr "z.cpp"; JStr "noext"; JInt 3; JStr "v.cpp"])])
              "validators" "subtask" (Some "a") subtasks_state)) /\
  (forall x, In x ["v.cpp"] <-> In x (@nil string) \/
     used_from ["v.cpp"; "w.py"] [JStr "v.cpp --x"; JStr "z.cpp"; JStr "noext"; JInt 3; JStr "v.cpp"] x) /\
  (NoDup (@nil string) -> NoDup ["v.cpp"]).
Proof.
  assert (Hl : lookup "validators" [("validators", JList [JStr "v.cpp --x"; JStr "z.cpp"; JStr "noext"; JInt 3; JStr "v.cpp"])]
    = Some (JList [JStr "v.cpp --x"; JStr "z.cpp"; JStr "noext"; JInt 3; JStr "v.cpp"])) by reflexivity.
  assert (H : check_validator_key ["v.cpp"; "w.py"] []
      (JObj [("validators", JList [JStr "v.cpp --x"; JStr "z.cpp"; JStr "noext"; JInt 3; JStr "v.cpp"])])
      "validators" "subtask" (Some "a") subtasks_state
    = (Ok ["v.cpp"],
       snd (check_validator_key ["v.cpp"; "w.py"] []
              (JObj [("validators", JList [JStr "v.cpp --x"; JStr "z.cpp"; JStr "noext"; JInt 3; JStr "v.cpp"])])
              "validators" "subtask" (Some "a") subtasks_state))) by (vm_compute; reflexivity).
  refine (conj Hl (conj H _)).
  apply (check_validator_key_used _ _ _ _ _ _ _ _ _ _ Hl H).
Defined.

(** The problem of [valid_problem_repo] with the git remote [\xe9p.git],
    a Latin-1 name that is not UTF-8, and [WEB_TERMINAL] unset. *)
Definition latin1_remote_repo : env :=
  mkEnv (FJson (problem_raw (RFloat (FFin 1)) (RInt 256))) FMissing FMissing SMissing
        (Some (String (ascii_of_nat 233) "p.git")) None None None (Some "p")
        (Some []) (Some []) (fun _ => true).

Definition valid_problem_pairs : list (string * raw) :=
  [("name", RStr "p"); ("title", RStr "P"); ("type", RStr "Batch");
   ("time_limit", RFloat (FFin 1)); ("memory_limit", RInt 256)].

Lemma non_utf8_remote_crashes_witness :
  problem_file latin1_remote_repo = FJson (RObj valid_problem_pairs) /\
  forallb (fun k => key_in k valid_problem_pairs) problem_keys = true /\
  lookup "name" valid_problem_pairs = Some (RStr "p") /\
  web_terminal_true latin1_remote_repo = false /\
  git_origin latin1_remote_repo = Some (String (ascii_of_nat 233) "p.git") /\
  utf8_decode (bytes_strip (String (ascii_of_nat 233) "p.git")) = None /\
  fst (verify_problem latin1_remote_repo state0) = Raise ValueError.
Proof.
  refine (conj _ (conj _ (conj _ (conj _ (conj _ (conj _ _)))))); [vm_compute; reflexivity ..|].
  apply (non_utf8_remote_crashes _ _ valid_problem_pairs "p" (String (ascii_of_nat 233) "p.git"));
    vm_compute; reflexivity.
Defined.
